(** * Voice Evaluation Backend: session correlation and report normalisation

    A shallow embedding of [server.py]: the three in-memory dictionaries
    ([sessions], [call_to_session], [assistant_to_session]), the
    [start_session] endpoint and the [vapi_webhook] handler with its helper
    [iso_to_ms].

    Conventions of the embedding.
    - A request payload is a value of [json], the result of [json.loads]:
      [None], [bool], [int] (unbounded), [float] (a binary64 number, here a
      [spec_float]), [str], [list] and [dict] (its items in dictionary order).
    - A Python [str] is a [string]; one [ascii] stands for one character, so
      [String.length] is Python's [len] and slicing counts characters.
    - Code that can raise lives in the monad [result]; the [try]/[except] of
      the source is [try_except] below.
    - [sessions] is an association list in insertion order, because the source
      reads [list(sessions.keys())[-1]]; the two index dictionaries, whose
      order is never observed, are finite maps. *)

From Stdlib Require Import ZArith Lia Bool List Ascii String.
From Stdlib Require Import SpecFloat DecimalString DecimalZ.
From stdpp Require Import base option countable gmap strings list fin_maps.

Import ListNotations.
Local Open Scope Z_scope.
Set Warnings "-register-all".

(** ** The exception monad *)

(** The classes of exception the modelled code can raise.  [InsertFailed msg]
    is whatever [supabase...insert(...).execute()] raises, with its text. *)
Inductive pyexn : Type :=
| AttributeError
| TypeError
| ValueError
| OverflowError
| IndexError
| JSONDecodeError
| InsertFailed (msg : string).

Inductive result (A : Type) : Type :=
| Ok (a : A)
| Raise (e : pyexn).
Arguments Ok {A} a.
Arguments Raise {A} e.

#[global] Instance result_ret : MRet result := λ A a, Ok a.

#[global] Instance result_bind : MBind result := λ A B k m,
  match m with
  | Ok a => k a
  | Raise e => Raise e
  end.

Definition try_except {A : Type} (m : result A) (handler : pyexn → A) : A :=
  match m with
  | Ok a => a
  | Raise e => handler e
  end.

(** ** JSON values as Python objects *)

Inductive json : Type :=
| JNull
| JBool (b : bool)
| JInt (z : Z)
| JFloat (f : spec_float)
| JStr (s : string)
| JArr (items : list json)
| JObj (items : list (string * json)).

(** Truth value of an object, as used by [if x], [x or y] and [not x]. *)
Definition truthy (v : json) : bool :=
  match v with
  | JNull => false
  | JBool b => b
  | JInt z => negb (z =? 0)
  | JFloat (S754_zero _) => false
  | JFloat _ => true
  | JStr s => negb (String.eqb s "")
  | JArr l => match l with [] => false | _ => true end
  | JObj l => match l with [] => false | _ => true end
  end.

(** [a or b], with [b] evaluated only when [a] is falsy. *)
Definition py_or (a : json) (b : result json) : result json :=
  if truthy a then Ok a else b.

Fixpoint assoc {V : Type} (k : string) (l : list (string * V)) : option V :=
  match l with
  | [] => None
  | (k', v) :: l' => if String.eqb k k' then Some v else assoc k l'
  end.

(** [o.get(k, default)]: only a [dict] has the method. *)
Definition get_default (o : json) (k : string) (default : json) : result json :=
  match o with
  | JObj items => Ok (match assoc k items with Some v => v | None => default end)
  | _ => Raise AttributeError
  end.

(** [o.get(k)], whose default is [None]. *)
Definition get (o : json) (k : string) : result json := get_default o k JNull.

(** [list(o.values())[0]]. *)
Definition first_value (o : json) : result json :=
  match o with
  | JObj ((_, v) :: _) => Ok v
  | JObj [] => Raise IndexError
  | _ => Raise AttributeError
  end.

(** ** Numbers *)

(** Exact integer value of a float, when it has one ([1.0], [-0.0], [3e5]). *)
Definition float_integral (f : spec_float) : option Z :=
  match f with
  | S754_zero _ => Some 0
  | S754_finite s m e =>
      let v := if 0 <=? e then Some (Z.pos m * 2 ^ e)
               else if Z.pos m mod 2 ^ (- e) =? 0 then Some (Z.pos m / 2 ^ (- e))
               else None in
      (if s then Z.opp else id) <$> v
  | _ => None
  end.

(** [float(n)] for an [int]: round to nearest even, [OverflowError] beyond
    the binary64 range. *)
Definition float_of_int (z : Z) : result spec_float :=
  match binary_normalize 53 1024 z 0 false with
  | S754_infinity _ => Raise OverflowError
  | f => Ok f
  end.

(** [int(x)] for a [float]: truncation towards zero. *)
Definition int_of_float (f : spec_float) : result Z :=
  match f with
  | S754_zero _ => Ok 0
  | S754_infinity _ => Raise OverflowError
  | S754_nan => Raise ValueError
  | S754_finite s m e =>
      let a := if 0 <=? e then Z.pos m * 2 ^ e else Z.pos m / 2 ^ (- e) in
      Ok (if s then - a else a)
  end.

(** [str(n)] for an [int]. *)
Definition str_int (z : Z) : string := NilZero.string_of_int (Z.to_int z).

(** ** Dictionary keys *)

(** A hashable object up to Python's key equality: [True == 1 == 1.0] and
    [0 == -0.0] are one key, a string is only equal to itself. *)
Inductive pykey : Type :=
| KNone
| KNum (z : Z)
| KFloat (f : spec_float)
| KStr (s : string).

(** The canonical representative of a float that is not an integer: the
    mantissa is made odd. *)
Fixpoint strip_mantissa (m : positive) (e : Z) : positive * Z :=
  match m with
  | xO m' => strip_mantissa m' (e + 1)
  | _ => (m, e)
  end.

Definition float_key (f : spec_float) : pykey :=
  match float_integral f with
  | Some z => KNum z
  | None =>
      match f with
      | S754_finite s m e => let '(m', e') := strip_mantissa m e in KFloat (S754_finite s m' e')
      | _ => KFloat f
      end
  end.

(** Hashing an object: lists and dicts raise [TypeError: unhashable type]. *)
Definition key_of (v : json) : result pykey :=
  match v with
  | JNull => Ok KNone
  | JBool b => Ok (KNum (if b then 1 else 0))
  | JInt z => Ok (KNum z)
  | JFloat f => Ok (float_key f)
  | JStr s => Ok (KStr s)
  | JArr _ | JObj _ => Raise TypeError
  end.

#[global] Instance spec_float_eq_dec : EqDecision spec_float.
Proof. solve_decision. Defined.

#[global] Instance pykey_eq_dec : EqDecision pykey.
Proof. solve_decision. Defined.

Definition spec_float_enc (f : spec_float) : bool + bool + unit + bool * positive * Z :=
  match f with
  | S754_zero s => inl (inl (inl s))
  | S754_infinity s => inl (inl (inr s))
  | S754_nan => inl (inr tt)
  | S754_finite s m e => inr (s, m, e)
  end.

Definition spec_float_dec (x : bool + bool + unit + bool * positive * Z) : spec_float :=
  match x with
  | inl (inl (inl s)) => S754_zero s
  | inl (inl (inr s)) => S754_infinity s
  | inl (inr _) => S754_nan
  | inr (s, m, e) => S754_finite s m e
  end.

#[global] Instance spec_float_countable : Countable spec_float.
Proof.
  refine (inj_countable' spec_float_enc spec_float_dec _).
  intros []; reflexivity.
Defined.

Definition pykey_enc (k : pykey) : unit + Z + spec_float + string :=
  match k with
  | KNone => inl (inl (inl tt))
  | KNum z => inl (inl (inr z))
  | KFloat f => inl (inr f)
  | KStr s => inr s
  end.

Definition pykey_dec (x : unit + Z + spec_float + string) : pykey :=
  match x with
  | inl (inl (inl _)) => KNone
  | inl (inl (inr z)) => KNum z
  | inl (inr f) => KFloat f
  | inr s => KStr s
  end.

#[global] Instance pykey_countable : Countable pykey.
Proof.
  refine (inj_countable' pykey_enc pykey_dec _).
  intros []; reflexivity.
Defined.

(** ** Strings *)

(** [s[:n]] *)
Fixpoint str_take (n : nat) (s : string) : string :=
  match n, s with
  | S n', String c s' => String c (str_take n' s')
  | _, _ => EmptyString
  end.

(** [s.replace('Z', '+00:00')] *)
Fixpoint replace_Z (s : string) : string :=
  match s with
  | EmptyString => EmptyString
  | String c s' =>
      if Ascii.eqb c "Z" then String.append "+00:00" (replace_Z s')
      else String c (replace_Z s')
  end.

(** [c in s] for a one-character [c]. *)
Fixpoint str_contains (c : ascii) (s : string) : bool :=
  match s with
  | EmptyString => false
  | String c' s' => Ascii.eqb c c' || str_contains c s'
  end.

(** [x[:n]]: strings and lists can be sliced, nothing else in a payload.
    (On a [dict] the exception is a [TypeError] up to Python 3.11 and a
    [KeyError] from 3.12; the handler treats both alike.) *)
Definition py_slice (n : nat) (x : json) : result json :=
  match x with
  | JStr s => Ok (JStr (str_take n s))
  | JArr l => Ok (JArr (take n l))
  | _ => Raise TypeError
  end.

(** ** What the runtime supplies

    Library functions and configuration that are not code of the repository.
    Every theorem below holds for any such runtime. *)
Class Runtime : Type := {
  (** [float(s)] for a [str]; [None] when it raises [ValueError] *)
  float_of_str : string → option spec_float;
  (** [int(s)] for a [str]; [None] when it raises [ValueError] *)
  int_of_str : string → option Z;
  (** [str(x)] for a [float], a [list] or a [dict] *)
  repr_other : json → string;
  (** [int(datetime.fromisoformat(s).timestamp() * 1000)]; [None] when
      either call raises *)
  fromisoformat_ms : string → option Z;
  (** [os.getenv] *)
  getenv : string → option string;
  (** [VAPI_PUBLIC_KEY], checked to be set when the module is loaded *)
  VAPI_PUBLIC_KEY : string
}.

(** ** Data model *)

Module Role.
(** An entry of [ROLES]. *)
Record t : Type := mk {
  title : string;
  description : string;
  assistant_id : option string;
  criteria : list string;
  scenario : string
}.
End Role.

Module SessionRequest.
Record t : Type := mk {
  role : string;
  candidate_name : string;
  user_email : string
}.

(** The [Field(min_length=1, max_length=100)] constraint, checked by the
    framework before [start_session] runs. *)
Definition valid (req : t) : bool :=
  let n := String.length (candidate_name req) in
  (1 <=? n)%nat && (n <=? 100)%nat.
End SessionRequest.

Module Session.
(** A value of [sessions]. *)
Record t : Type := mk {
  session_id : string;
  role : string;
  role_title : string;
  candidate : string;
  criteria : list string;
  assistant_id : string;
  user_email : string;
  started : string
}.
End Session.

Module DbData.
(** The row [db_data] handed to [insert].  [transcript] is whatever
    [transcript[:3000]] evaluates to. *)
Record t : Type := mk {
  session_id : string;
  user_email : string;
  candidate_name : string;
  role : string;
  duration_minutes : Z;
  overall_score : spec_float;
  recommendation : string;
  transcript : json;
  score_1 : Z;
  score_2 : Z;
  score_3 : Z;
  score_4 : Z;
  score_5 : Z;
  strength_1 : string;
  strength_2 : string;
  strength_3 : string;
  improvement_1 : string;
  improvement_2 : string
}.
End DbData.

(** ** Conversions and the role table *)

Section Server.
Context `{RT : Runtime}.

Definition py_float (v : json) : result spec_float :=
  match v with
  | JBool b => Ok (if b then S754_finite false 4503599627370496 (-52) else S754_zero false)
  | JInt z => float_of_int z
  | JFloat f => Ok f
  | JStr s => match float_of_str s with Some f => Ok f | None => Raise ValueError end
  | JNull | JArr _ | JObj _ => Raise TypeError
  end.

Definition py_int (v : json) : result Z :=
  match v with
  | JBool b => Ok (if b then 1 else 0)
  | JInt z => Ok z
  | JFloat f => int_of_float f
  | JStr s => match int_of_str s with Some z => Ok z | None => Raise ValueError end
  | JNull | JArr _ | JObj _ => Raise TypeError
  end.

Definition py_str (v : json) : string :=
  match v with
  | JStr s => s
  | JNull => "None"
  | JBool b => if b then "True" else "False"
  | JInt z => str_int z
  | _ => repr_other v
  end.

(** [iso_to_ms]: the bare [except] turns every failure, also the missing
    [replace] method of an object that is not a string, into 0. *)
Definition iso_to_ms (iso_str : json) : Z :=
  try_except
    (match iso_str with
     | JStr s =>
         match fromisoformat_ms (replace_Z s) with
         | Some ms => Ok ms
         | None => Raise ValueError
         end
     | _ => Raise AttributeError
     end)
    (λ _, 0).

Definition ROLES : list (string * Role.t) :=
  [ ("project_manager",
     Role.mk "Project Manager"
       "Project delivery and team management evaluation"
       (getenv "ASSISTANT_ID_PROJECT_MANAGER")
       ["Problem Solving"; "Leadership"; "Communication"; "Accountability"; "Planning"]
       "We're 3 months behind schedule and 40% over budget on the Bangalore project. What happened and what's your plan?");
    ("team_lead",
     Role.mk "Team Lead"
       "Technical leadership and team management"
       (getenv "ASSISTANT_ID_TEAM_LEAD")
       ["Mentoring"; "Technical Decisions"; "Communication"; "Conflict Resolution"; "Process"]
       "Team velocity dropped 35% and two senior developers resigned. What's happening?");
    ("product_owner",
     Role.mk "Product Owner"
       "Product strategy and stakeholder management"
       (getenv "ASSISTANT_ID_PRODUCT_OWNER")
       ["Strategy"; "Data-Driven"; "Stakeholders"; "User Focus"; "Prioritization"]
       "Last 3 features failed adoption targets and churn is up 15%. Explain your strategy.");
    ("sales_manager",
     Role.mk "Sales Manager"
       "Sales performance and team coaching"
       (getenv "ASSISTANT_ID_SALES_MANAGER")
       ["Sales Skills"; "Coaching"; "Accounts"; "Forecasting"; "Pressure"]
       "Missed quota by 30%, pipeline at 1.5x instead of 3x, three accounts at risk. What's your plan?")
  ].

(** ** The in-memory storage *)

(** [d[k] = v] on an insertion-ordered dictionary: an existing key keeps its
    position, a new key goes last. *)
Fixpoint dict_set {V : Type} (k : string) (v : V) (d : list (string * V)) : list (string * V) :=
  match d with
  | [] => [(k, v)]
  | (k', v') :: d' =>
      if String.eqb k k' then (k, v) :: d' else (k', v') :: dict_set k v d'
  end.

(** [d.pop(k, None)], for its effect.  A dictionary holds a key once; on a
    list that repeated it every occurrence goes. *)
Fixpoint dict_pop {V : Type} (k : string) (d : list (string * V)) : list (string * V) :=
  match d with
  | [] => []
  | (k', v') :: d' =>
      if String.eqb k k' then dict_pop k d' else (k', v') :: dict_pop k d'
  end.

(** [list(d.keys())] *)
Definition keys {V : Type} (d : list (string * V)) : list string := map fst d.

(** [list(d.keys())[-1] if d else None] *)
Definition last_key {V : Type} (d : list (string * V)) : option string :=
  last (keys d).

(** The module-level dictionaries, and the [evaluations] table behind the
    persistence client as the list of rows inserted so far. *)
Record state : Type := mkState {
  sessions : list (string * Session.t);
  call_to_session : gmap pykey string;
  assistant_to_session : gmap pykey string;
  evaluations : list DbData.t
}.

Definition initial_state : state := mkState [] ∅ ∅ [].

(** ** [start_session] *)

Inductive http_error : Type :=
| HTTPException (status_code : Z) (detail : string).

Record start_response : Type := mkStart {
  success : bool;
  sessionId : string;
  publicKey : string;
  assistantId : string;
  scenario : string
}.

(** [f"session_{req.role}_{timestamp}"] *)
Definition make_session_id (role : string) (timestamp : Z) : string :=
  String.append "session_" (String.append role (String.append "_" (str_int timestamp))).

(** [timestamp] is [int(datetime.now().timestamp() * 1000)] and [started] is
    [datetime.now().isoformat()], the two clock readings of the call. *)
Definition start_session (req : SessionRequest.t) (timestamp : Z) (started : string)
    (st : state) : (http_error + start_response) * state :=
  match assoc (SessionRequest.role req) ROLES with
  | None => (inl (HTTPException 400 "Invalid role"), st)
  | Some role =>
      match Role.assistant_id role with
      | None => (inl (HTTPException 503 "Assistant not configured"), st)
      | Some assistant_id =>
          if String.eqb assistant_id "" then
            (inl (HTTPException 503 "Assistant not configured"), st)
          else if negb (str_contains "@" (SessionRequest.user_email req)) then
            (inl (HTTPException 400 "Invalid email address"), st)
          else
            let session_id := make_session_id (SessionRequest.role req) timestamp in
            let session :=
              Session.mk session_id (SessionRequest.role req) (Role.title role)
                (SessionRequest.candidate_name req) (Role.criteria role)
                assistant_id (SessionRequest.user_email req) started in
            (inr (mkStart true session_id VAPI_PUBLIC_KEY assistant_id (Role.scenario role)),
             mkState (dict_set session_id session (sessions st))
                     (call_to_session st)
                     (<[KStr assistant_id := session_id]> (assistant_to_session st))
                     (evaluations st))
      end
  end.

(** ** [vapi_webhook] *)

(** The [message] of an error payload: a literal, or [str(e)]. *)
Inductive message_text : Type :=
| Text (s : string)
| StrOf (e : pyexn).

(** [{"status": "ok"}] and [{"status": "error", "message": ...}] *)
Inductive webhook_response : Type :=
| StatusOk
| StatusError (message : message_text).

(** Line 259: [call_to_session.get(call_id) or
    (list(sessions.keys())[-1] if sessions else None)], for a hashed
    [call_id]. *)
Definition resolve_session_id (st : state) (call_key : pykey) : option string :=
  match call_to_session st !! call_key with
  | Some sid => if String.eqb sid "" then last_key (sessions st) else Some sid
  | None => last_key (sessions st)
  end.

(** Lines 270-282: the scores object. *)
Definition extract_structured (message : json) : result json :=
  artifact ← get_default message "artifact" (JObj []);
  structured_outputs ← get_default artifact "structuredOutputs" (JObj []);
  if truthy structured_outputs then
    first_output ← first_value structured_outputs;
    get_default first_output "result" (JObj [])
  else
    analysis ← get_default message "analysis" (JObj []);
    get_default analysis "structuredData" (JObj []).

(** Lines 285-287: [max(1, (iso_to_ms(end) - iso_to_ms(start)) // 60000)
    if start and end else 1]. *)
Definition duration_min (start end_ : json) : Z :=
  if truthy start && truthy end_
  then Z.max 1 ((iso_to_ms end_ - iso_to_ms start) / 60000)
  else 1.

Definition float_field (structured : json) (k : string) : result spec_float :=
  v ← get_default structured k (JInt 0); py_float v.

Definition int_field (structured : json) (k : string) : result Z :=
  v ← get_default structured k (JInt 0); py_int v.

Definition text_field (structured : json) (k : string) : result string :=
  v ← get_default structured k (JStr "N/A"); mret (str_take 500 (py_str v)).

(** Lines 290-309: the dictionary display, its values evaluated in order. *)
Definition build_db_data (session_id : string) (session : Session.t)
    (duration : Z) (structured transcript : json) : result DbData.t :=
  overall ← float_field structured "overall";
  rec ← text_field structured "rec";
  transcript' ← py_slice 3000 transcript;
  s1 ← int_field structured "s1";
  s2 ← int_field structured "s2";
  s3 ← int_field structured "s3";
  s4 ← int_field structured "s4";
  s5 ← int_field structured "s5";
  str1 ← text_field structured "str1";
  str2 ← text_field structured "str2";
  str3 ← text_field structured "str3";
  imp1 ← text_field structured "imp1";
  imp2 ← text_field structured "imp2";
  mret (DbData.mk session_id (Session.user_email session) (Session.candidate session)
          (Session.role_title session) duration overall rec transcript'
          s1 s2 s3 s4 s5 str1 str2 str3 imp1 imp2).

(** The branch [event == "assistant-request"]. *)
Definition assistant_request (message : json) (st : state)
    : result (webhook_response * state) :=
  call ← get_default message "call" (JObj []);
  call_id ← get call "id";
  a ← get message "assistantId";
  assistant_id ← py_or a (assistant ← get_default message "assistant" (JObj []);
                          get assistant "id");
  assistant_key ← key_of assistant_id;
  match assistant_to_session st !! assistant_key with
  | Some session_id =>
      if String.eqb session_id "" then mret (StatusOk, st)
      else
        call_key ← key_of call_id;
        mret (StatusOk,
              mkState (sessions st)
                      (<[call_key := session_id]> (call_to_session st))
                      (assistant_to_session st)
                      (evaluations st))
  | None => mret (StatusOk, st)
  end.

(** The branch [event == "end-of-call-report"], in two parts.  Lines 256-309:
    the session is resolved and the row is built; nothing is written yet. *)
Inductive prepared : Type :=
| NotFound
| Ready (session_id : string) (call_key : pykey) (db_data : DbData.t).

Definition prepare_report (message : json) (st : state) : result prepared :=
  call_data ← get_default message "call" (JObj []);
  call_id ← get call_data "id";
  call_key ← key_of call_id;
  match resolve_session_id st call_key with
  | None => mret NotFound
  | Some session_id =>
      if String.eqb session_id "" then mret NotFound
      else
        match assoc session_id (sessions st) with
        | None => mret NotFound
        | Some session =>
            transcript ← get_default message "transcript" (JStr "No transcript available");
            structured ← extract_structured message;
            start ← get call_data "startedAt";
            end_ ← get call_data "endedAt";
            db_data ← build_db_data session_id session (duration_min start end_)
                        structured transcript;
            mret (Ready session_id call_key db_data)
        end
  end.

(** Lines 317-331: the insert, its own [try]/[except], and the cleanup.
    [insert row] is the outcome of
    [supabase.table("evaluations").insert(row).execute()]: [None] when it
    returns, [Some msg] when it raises an exception whose text is [msg]. *)
Definition end_of_call_report (insert : DbData.t → option string)
    (message : json) (st : state) : result (webhook_response * state) :=
  p ← prepare_report message st;
  match p with
  | NotFound => mret (StatusError (Text "session not found"), st)
  | Ready session_id call_key db_data =>
      match insert db_data with
      | Some msg => mret (StatusError (StrOf (InsertFailed msg)), st)
      | None =>
          mret (StatusOk,
                mkState (dict_pop session_id (sessions st))
                        (delete call_key (call_to_session st))
                        (assistant_to_session st)
                        (evaluations st ++ [db_data]))
      end
  end.

(** [event == name] for a string literal [name]. *)
Definition event_is (event : json) (name : string) : bool :=
  match event with
  | JStr s => String.eqb s name
  | _ => false
  end.

(** The body of the outer [try].  [body] is the request body: [None] when
    [request.json()] cannot decode it. *)
Definition dispatch (insert : DbData.t → option string) (body : option json)
    (st : state) : result (webhook_response * state) :=
  payload ← match body with Some p => Ok p | None => Raise JSONDecodeError end;
  message ← get_default payload "message" (JObj []);
  t ← get message "type";
  event ← py_or t (get payload "type");
  if event_is event "assistant-request" then assistant_request message st
  else if event_is event "end-of-call-report" then end_of_call_report insert message st
  else mret (StatusOk, st).

(** Every statement that can raise comes before the first assignment to a
    dictionary, so the handler of the outer [try] sees the state of entry. *)
Definition vapi_webhook (insert : DbData.t → option string) (body : option json)
    (st : state) : webhook_response * state :=
  try_except (dispatch insert body st) (λ e, (StatusError (StrOf e), st)).

(** ** The server as a transition system *)

Inductive request : Type :=
| PostSessionStart (req : SessionRequest.t) (timestamp : Z) (started : string)
| PostWebhookVapi (insert : DbData.t → option string) (body : option json).

(** A request whose body fails the model validation never reaches
    [start_session]. *)
Definition handle (r : request) (st : state) : state :=
  match r with
  | PostSessionStart req timestamp started =>
      if SessionRequest.valid req then snd (start_session req timestamp started st) else st
  | PostWebhookVapi insert body => snd (vapi_webhook insert body st)
  end.

Definition run (rs : list request) (st : state) : state :=
  fold_left (λ s r, handle r s) rs st.

Inductive reachable : state → Prop :=
| reachable_init : reachable initial_state
| reachable_step st r : reachable st → reachable (handle r st).

End Server.

(** ** A reference runtime

    Used to run the model on concrete requests.  Its timestamp parser covers
    the whole-second form [YYYY-MM-DDTHH:MM:SS] followed by a [+HH:MM] or
    [-HH:MM] offset (so, after [replace], also by [Z]), where the product
    [timestamp() * 1000] is exact; on these strings it computes what CPython
    computes, and it reports any other string as a failure.  The string
    conversions [float_of_str], [int_of_str] and [repr_other] are left
    trivial: no request evaluated below reaches them. *)

Definition digit (c : ascii) : option Z :=
  let n := Z.of_nat (nat_of_ascii c) in
  if (48 <=? n) && (n <=? 57) then Some (n - 48) else None.

Definition two_digits (a b : ascii) : option Z :=
  x ← digit a; y ← digit b; Some (10 * x + y).

Definition is_leap (y : Z) : bool :=
  (y mod 4 =? 0) && (negb (y mod 100 =? 0) || (y mod 400 =? 0)).

Definition days_in_month (y m : Z) : Z :=
  if m =? 2 then (if is_leap y then 29 else 28)
  else if (m =? 4) || (m =? 6) || (m =? 9) || (m =? 11) then 30 else 31.

(** Days of the year before the first of month [m]. *)
Definition days_before_month (y m : Z) : Z :=
  let cumulative := nth (Z.to_nat (m - 1)) [0; 31; 59; 90; 120; 151; 181; 212; 243; 273; 304; 334] 0 in
  if (2 <? m) && is_leap y then cumulative + 1 else cumulative.

(** [date(y, m, d).toordinal()] *)
Definition toordinal (y m d : Z) : Z :=
  let y' := y - 1 in
  y' * 365 + y' / 4 - y' / 100 + y' / 400 + days_before_month y m + d.

Definition reference_fromisoformat_ms (s : string) : option Z :=
  match list_ascii_of_string s with
  | [y1; y2; y3; y4; d1; m1; m2; d2; dd1; dd2; t; h1; h2; c1; mi1; mi2; c2; s1; s2;
     sg; oh1; oh2; c3; om1; om2] =>
      yh ← two_digits y1 y2; yl ← two_digits y3 y4;
      mo ← two_digits m1 m2; dd ← two_digits dd1 dd2;
      hh ← two_digits h1 h2; mi ← two_digits mi1 mi2; ss ← two_digits s1 s2;
      oh ← two_digits oh1 oh2; om ← two_digits om1 om2;
      let y := 100 * yh + yl in
      let sign := if Ascii.eqb sg "+" then Some 1
                  else if Ascii.eqb sg "-" then Some (-1) else None in
      sgn ← sign;
      if Ascii.eqb d1 "-" && Ascii.eqb d2 "-" && Ascii.eqb t "T"
         && Ascii.eqb c1 ":" && Ascii.eqb c2 ":" && Ascii.eqb c3 ":"
         && (1 <=? y) && (1 <=? mo) && (mo <=? 12)
         && (1 <=? dd) && (dd <=? days_in_month y mo)
         && (hh <? 24) && (mi <? 60) && (ss <? 60) && (oh <? 24) && (om <? 60)
      then
        let seconds := (toordinal y mo dd - 719163) * 86400 + hh * 3600 + mi * 60 + ss in
        Some ((seconds - sgn * (oh * 3600 + om * 60)) * 1000)
      else None
  | _ => None
  end.

Definition reference_getenv (name : string) : option string :=
  assoc name
    [ ("ASSISTANT_ID_PROJECT_MANAGER", "asst-project-manager");
      ("ASSISTANT_ID_TEAM_LEAD", "asst-team-lead");
      ("ASSISTANT_ID_PRODUCT_OWNER", "asst-product-owner");
      ("ASSISTANT_ID_SALES_MANAGER", "asst-sales-manager") ]%string.

Definition reference_runtime : Runtime := {|
  float_of_str := λ _, None;
  int_of_str := λ _, None;
  repr_other := λ _, EmptyString;
  fromisoformat_ms := reference_fromisoformat_ms;
  getenv := reference_getenv;
  VAPI_PUBLIC_KEY := "pk-reference"
|}.

(** ** Reading an event

    What identifies an event, computed as the handler computes it. *)

(** Line 238: [message.get("type") or payload.get("type")]. *)
Definition event_type (payload : json) : result json :=
  message ← get_default payload "message" (JObj []);
  t ← get message "type";
  py_or t (get payload "type").

(** Lines 256-259: the hashed [message.get("call", {}).get("id")]. *)
Definition call_key_of (payload : json) : result pykey :=
  message ← get_default payload "message" (JObj []);
  call_data ← get_default message "call" (JObj []);
  call_id ← get call_data "id";
  key_of call_id.

(** The report of an event: [prepare_report] on its [message]. *)
Definition report_of `{RT : Runtime} (payload : json) (st : state) : result prepared :=
  message ← get_default payload "message" (JObj []);
  prepare_report message st.

(** The identifiers in circulation are never the empty string. *)
Definition identifiers_nonempty (st : state) : Prop :=
  (∀ sid, sid ∈ keys (sessions st) → sid ≠ EmptyString)
  ∧ (∀ k sid, call_to_session st !! k = Some sid → sid ≠ EmptyString)
  ∧ (∀ k sid, assistant_to_session st !! k = Some sid → sid ≠ EmptyString).

(** ** The two payload shapes, in the words of the specification *)

(** [o[k1][k2]...], when every step is a key of an object. *)
Fixpoint lookup_path (o : json) (ks : list string) : option json :=
  match ks with
  | [] => Some o
  | k :: ks' =>
      match o with
      | JObj items =>
          match assoc k items with
          | Some v => lookup_path v ks'
          | None => None
          end
      | _ => None
      end
  end.






(** The free-text columns of a row, with the key each is read from. *)
Definition text_fields : list (string * (DbData.t → string)) :=
  [ ("rec", DbData.recommendation);
    ("str1", DbData.strength_1);
    ("str2", DbData.strength_2);
    ("str3", DbData.strength_3);
    ("imp1", DbData.improvement_1);
    ("imp2", DbData.improvement_2) ]%string.

(** ** Requests used in the examples *)

Definition issued_id (r : http_error + start_response) : option string :=
  match r with
  | inl _ => None
  | inr resp => Some (sessionId resp)
  end.

Definition ada : SessionRequest.t :=
  SessionRequest.mk "team_lead" "Ada" "ada@example.com".

Definition grace : SessionRequest.t :=
  SessionRequest.mk "team_lead" "Grace" "grace@example.com".

Definition linus : SessionRequest.t :=
  SessionRequest.mk "sales_manager" "Linus" "linus@example.com".

Definition report_message (call rest : list (string * json)) : json :=
  JObj (("type", JStr "end-of-call-report") :: ("call", JObj call) :: rest)%string.

Definition report_payload (call rest : list (string * json)) : json :=
  JObj [("message", report_message call rest)]%string.

Definition request_payload (call_id assistant_id : string) : json :=
  JObj [("message",
         JObj [("type", JStr "assistant-request");
               ("call", JObj [("id", JStr call_id)]);
               ("assistantId", JStr assistant_id)])]%string.

(** Both shapes at once: overall 8 in the structured outputs, overall 2 in
    the analysis. *)
Definition both_shapes : json :=
  report_payload [("id", JStr "call-1")]
    [("artifact",
      JObj [("structuredOutputs",
             JObj [("x", JObj [("result", JObj [("overall", JInt 8)])])])]);
     ("analysis", JObj [("structuredData", JObj [("overall", JInt 2)])])]%string.




Definition timed_report (started ended : json) : json :=
  report_payload [("id", JStr "call-1"); ("startedAt", started); ("endedAt", ended)] [].

Fixpoint repeat_char (c : ascii) (n : nat) : string :=
  match n with
  | O => EmptyString
  | S n' => String c (repeat_char c n')
  end.

Definition long_report : json :=
  report_payload [("id", JStr "call-1")]
    [("transcript", JStr (repeat_char "t" 3001));
     ("analysis",
      JObj [("structuredData", JObj [("rec", JStr (repeat_char "r" 501))])])]%string.

Definition accepts : DbData.t → option string := λ _, None.

Definition refuses : DbData.t → option string := λ _, Some "connection refused"%string.

(** One open session, started by [ada]. *)
Definition one_session : state :=
  run (RT := reference_runtime)
    [PostSessionStart ada 1700000000000 "2023-11-14T22:13:20"] initial_state.

(** The same, with the call [call-1] linked to it. *)
Definition linked_session : state :=
  run (RT := reference_runtime)
    [PostWebhookVapi accepts (Some (request_payload "call-1" "asst-team-lead"))]
    one_session.


(** [ada]'s session was linked to two calls and retired by the report of the
    first; [linus] has since opened a session. *)
Definition stale_link : state :=
  run (RT := reference_runtime)
    [PostWebhookVapi accepts (Some (request_payload "call-2" "asst-team-lead"));
     PostWebhookVapi accepts (Some (report_payload [("id", JStr "call-1")] []));
     PostSessionStart linus 1700000005000 "2023-11-14T22:13:25"]
    linked_session.

(** A report whose third score is [null]. *)
Definition null_score_report : json :=
  report_payload [("id", JStr "call-1")]
    [("analysis",
      JObj [("structuredData", JObj [("s1", JInt 4); ("s3", JNull)])])]%string.

(** [ada]'s session is linked to [call-1]; [linus] has opened a session
    since. *)
Definition linked_then_second : state :=
  run (RT := reference_runtime)
    [PostSessionStart linus 1700000005000 "2023-11-14T22:13:25"] linked_session.

(** ** The other endpoints *)

Module RoleInfo.
Record t : Type := mk {
  id : string;
  title : string;
  description : string
}.
End RoleInfo.

(** [v.get("assistant_id")] as a condition: set, and not the empty string. *)
Definition configured (v : Role.t) : bool :=
  match Role.assistant_id v with
  | Some a => negb (String.eqb a "")
  | None => false
  end.

(** [get_roles]: the comprehension over [ROLES.items()]. *)
Definition get_roles `{RT : Runtime} : list RoleInfo.t :=
  map (λ kv, RoleInfo.mk (fst kv) (Role.title (snd kv)) (Role.description (snd kv)))
      (List.filter (λ kv, configured (snd kv)) ROLES).

Module Query.
(** A request built on [supabase.table(...)]: [select("*")], the [eq]
    filters in order, [order(column, desc=...)] and [limit(n)]. *)
Record t : Type := mk {
  table : string;
  eq_filters : list (string * string);
  order : option (string * bool);
  limit : option Z
}.
End Query.

(** Line 374: [ROLES.get(role, {}).get("title", role)]. *)
Definition role_title_of `{RT : Runtime} (role : string) : string :=
  match assoc role ROLES with
  | Some v => Role.title v
  | None => role
  end.

Definition user_evaluations_query (user_email : string) : Query.t :=
  Query.mk "evaluations" [("user_email", user_email)]%string
    (Some ("created_at"%string, true)) None.

Definition role_evaluations_query `{RT : Runtime} (user_email role : string) : Query.t :=
  Query.mk "evaluations"
    [("user_email", user_email); ("role", role_title_of role)]%string
    (Some ("created_at"%string, true)) (Some 10).

Definition evaluation_query (session_id : string) : Query.t :=
  Query.mk "evaluations" [("session_id", session_id)]%string None None.

Section ReadSide.
Context `{RT : Runtime}.

(** A stored row as the client returns it, and the outcome of
    [query.execute()]: the rows of [result.data], or the text of the
    exception it raises. *)
Variable Row : Type.
Variable execute : Query.t → string + list Row.

Definition get_user_evaluations (user_email : string) : http_error + list Row :=
  match execute (user_evaluations_query user_email) with
  | inr data => inr data
  | inl e => inl (HTTPException 500 (String.append "Failed to fetch evaluations: " e))
  end.

Definition get_user_evaluations_by_role (user_email role : string)
    : http_error + list Row :=
  match execute (role_evaluations_query user_email role) with
  | inr data => inr data
  | inl e => inl (HTTPException 500 (String.append "Failed to fetch evaluations: " e))
  end.

(** The [HTTPException] of the empty result is raised inside the [try] and
    passed on by the first [except] clause. *)
Definition get_evaluation (session_id : string) : http_error + Row :=
  match execute (evaluation_query session_id) with
  | inr [] =>
      inl (HTTPException 404 (String.append "Evaluation not found: " session_id))
  | inr (r :: _) => inr r
  | inl e => inl (HTTPException 500 (String.append "Failed to fetch evaluation: " e))
  end.

End ReadSide.

(** ** Reading an assistant request *)

(** Line 244, hashed as line 245 hashes it. *)
Definition assistant_key_of (payload : json) : result pykey :=
  message ← get_default payload "message" (JObj []);
  a ← get message "assistantId";
  assistant_id ← py_or a (assistant ← get_default message "assistant" (JObj []);
                          get assistant "id");
  key_of assistant_id.

(** Line 243, before any hashing. *)
Definition call_id_of (payload : json) : result json :=
  message ← get_default payload "message" (JObj []);
  call ← get_default message "call" (JObj []);
  get call "id".

(** ** What holds of every stored session and every inserted row *)

(** The integer columns of a row, with the key each is read from. *)
Definition score_fields : list (string * (DbData.t → Z)) :=
  [ ("s1", DbData.score_1);
    ("s2", DbData.score_2);
    ("s3", DbData.score_3);
    ("s4", DbData.score_4);
    ("s5", DbData.score_5) ]%string.

(** An identifier that [start_session] can have issued. *)
Definition issued `{RT : Runtime} (sid : string) : Prop :=
  ∃ role timestamp, is_Some (assoc role ROLES) ∧ sid = make_session_id role timestamp.

(** A session as [start_session] stores it, for a request that passed the
    validation of the framework. *)
Definition session_ok `{RT : Runtime} (sid : string) (s : Session.t) : Prop :=
  Session.session_id s = sid
  ∧ (∃ timestamp, sid = make_session_id (Session.role s) timestamp)
  ∧ (∃ v, assoc (Session.role s) ROLES = Some v
          ∧ Session.role_title s = Role.title v
          ∧ Session.criteria s = Role.criteria v
          ∧ Role.assistant_id v = Some (Session.assistant_id s))
  ∧ Session.assistant_id s ≠ EmptyString
  ∧ str_contains "@" (Session.user_email s) = true
  ∧ (1 ≤ String.length (Session.candidate s) ≤ 100)%nat.

Definition row_ok `{RT : Runtime} (row : DbData.t) : Prop :=
  issued (DbData.session_id row)
  ∧ str_contains "@" (DbData.user_email row) = true
  ∧ (1 ≤ String.length (DbData.candidate_name row) ≤ 100)%nat
  ∧ (∃ role v, assoc role ROLES = Some v ∧ DbData.role row = Role.title v)
  ∧ 1 ≤ DbData.duration_minutes row
  ∧ (∀ key field, (key, field) ∈ text_fields → (String.length (field row) ≤ 500)%nat).

Definition state_ok `{RT : Runtime} (st : state) : Prop :=
  (∀ sid s, assoc sid (sessions st) = Some s → session_ok sid s)
  ∧ (∀ k sid, call_to_session st !! k = Some sid → issued sid)
  ∧ (∀ k sid, assistant_to_session st !! k = Some sid →
       issued sid
       ∧ ∃ role v a, assoc role ROLES = Some v ∧ Role.assistant_id v = Some a
                     ∧ a ≠ EmptyString ∧ k = KStr a)
  ∧ (∀ row, row ∈ evaluations st → row_ok row).

(** * Properties *)

(** ** Strings and session identifiers *)

Lemma str_take_length n s :
  String.length (str_take n s) = Nat.min n (String.length s).
Proof.
  revert s. induction n as [|n IH]; intros [|c s]; simpl; auto.
Qed.

Lemma str_take_all n s :
  (String.length s <= n)%nat → str_take n s = s.
Proof.
  revert s. induction n as [|n IH]; intros [|c s]; simpl; intros Hlen;
    try reflexivity; try lia.
  f_equal. apply IH. lia.
Qed.

Lemma str_contains_append c a b :
  str_contains c (String.append a b) = str_contains c a || str_contains c b.
Proof.
  induction a as [|c' a IH]; simpl; [reflexivity|].
  rewrite IH. apply orb_assoc.
Qed.

Lemma append_inj_l a b1 b2 :
  String.append a b1 = String.append a b2 → b1 = b2.
Proof.
  induction a as [|c a IH]; simpl; [auto|].
  intros [= H]. auto.
Qed.

(** Splitting at the last separator: the part after it holds none. *)
Lemma append_sep_inj c a1 a2 b1 b2 :
  str_contains c b1 = false → str_contains c b2 = false →
  String.append a1 (String c b1) = String.append a2 (String c b2) →
  a1 = a2 ∧ b1 = b2.
Proof.
  intros Hb1 Hb2. revert a2.
  induction a1 as [|x a1 IH]; intros [|y a2]; simpl.
  - intros [= ->]. auto.
  - intros [= <- ->]. rewrite str_contains_append in Hb1. simpl in Hb1.
    rewrite Ascii.eqb_refl in Hb1. simpl in Hb1.
    rewrite orb_true_r in Hb1. discriminate.
  - intros [= -> <-]. rewrite str_contains_append in Hb2. simpl in Hb2.
    rewrite Ascii.eqb_refl in Hb2. simpl in Hb2.
    rewrite orb_true_r in Hb2. discriminate.
  - intros [= -> H]. destruct (IH _ H) as [-> ->]. auto.
Qed.

Lemma uint_digits_no_underscore d :
  str_contains "_" (NilEmpty.string_of_uint d) = false.
Proof. induction d; simpl; auto. Qed.

Lemma str_int_no_underscore z : str_contains "_" (str_int z) = false.
Proof.
  unfold str_int.
  destruct (Z.to_int z) as [d|d]; simpl;
    destruct d; simpl; auto using uint_digits_no_underscore.
Qed.

Lemma str_int_inj z1 z2 : str_int z1 = str_int z2 → z1 = z2.
Proof.
  unfold str_int. intros H.
  apply DecimalZ.to_int_inj.
  assert (Hnn : ∀ z, Z.to_int z ≠ Decimal.Pos Decimal.Nil ∧
                     Z.to_int z ≠ Decimal.Neg Decimal.Nil).
  { intros [|p|p]; simpl; split; try discriminate;
      intros [= Hp]; exact (DecimalPos.Unsigned.to_uint_nonnil p Hp). }
  destruct (Hnn z1) as [H1 H1'], (Hnn z2) as [H2 H2'].
  pose proof (NilZero.isi _ H1 H1') as E1.
  pose proof (NilZero.isi _ H2 H2') as E2.
  rewrite H in E1. congruence.
Qed.

Lemma make_session_id_inj r1 t1 r2 t2 :
  make_session_id r1 t1 = make_session_id r2 t2 → r1 = r2 ∧ t1 = t2.
Proof.
  unfold make_session_id. intros H.
  apply append_inj_l in H.
  apply append_sep_inj in H; auto using str_int_no_underscore.
  destruct H as [-> H]. split; [reflexivity|]. now apply str_int_inj.
Qed.

Lemma make_session_id_nonempty r t : make_session_id r t ≠ EmptyString.
Proof. unfold make_session_id. simpl. discriminate. Qed.

Section Identifiers.
Context `{RT : Runtime}.

Lemma start_session_ok req timestamp started st resp st' :
  start_session req timestamp started st = (inr resp, st') →
  sessionId resp = make_session_id (SessionRequest.role req) timestamp.
Proof.
  unfold start_session. intros H.
  destruct (assoc _ ROLES) as [role|]; [|discriminate].
  destruct (Role.assistant_id role) as [a|]; [|discriminate].
  destruct (String.eqb a ""); [discriminate|].
  destruct (negb _); [discriminate|].
  injection H as <- _. reflexivity.
Qed.

(** C8, as the code has it: for a registered role with a configured assistant
    and an email holding an at sign, [start_session] answers with the
    identifier [session_<role>_<t>], [t] being the millisecond clock reading,
    which contains the role id; and two calls answer with the same identifier
    exactly when they agree on the role id and on the clock reading. *)
Theorem start_session_identifier req timestamp started st role assistant_id :
  assoc (SessionRequest.role req) ROLES = Some role →
  Role.assistant_id role = Some assistant_id →
  assistant_id ≠ EmptyString →
  str_contains "@" (SessionRequest.user_email req) = true →
  ∃ resp st',
    start_session req timestamp started st = (inr resp, st')
    ∧ sessionId resp =
        String.append "session_"
          (String.append (SessionRequest.role req)
             (String.append "_" (str_int timestamp)))
    ∧ ∀ req2 timestamp2 started2 st2 resp2 st2',
        start_session req2 timestamp2 started2 st2 = (inr resp2, st2') →
        (sessionId resp = sessionId resp2
         ↔ SessionRequest.role req = SessionRequest.role req2
           ∧ timestamp = timestamp2).
Proof.
  intros Hrole Hassistant Hne Hemail.
  unfold start_session. rewrite Hrole, Hassistant.
  apply String.eqb_neq in Hne. rewrite Hne, Hemail. simpl.
  eexists _, _. split; [reflexivity|]. simpl. split; [reflexivity|].
  intros req2 t2 started2 st2 resp2 st2' H2.
  rewrite (start_session_ok _ _ _ _ _ _ H2). split.
  - apply make_session_id_inj.
  - intros [-> ->]. reflexivity.
Qed.

End Identifiers.

Lemma start_session_identifier_witness :
  ∃ resp st',
    start_session (RT := reference_runtime) ada 1700000000000
      "2023-11-14T22:13:20" initial_state = (inr resp, st')
    ∧ sessionId resp = "session_team_lead_1700000000000"%string
    ∧ ∀ req2 timestamp2 started2 st2 resp2 st2',
        start_session (RT := reference_runtime) req2 timestamp2 started2 st2
          = (inr resp2, st2') →
        (sessionId resp = sessionId resp2
         ↔ SessionRequest.role ada = SessionRequest.role req2
           ∧ 1700000000000 = timestamp2).
Proof.
  eapply (start_session_identifier (RT := reference_runtime) ada 1700000000000
            "2023-11-14T22:13:20" initial_state).
  - reflexivity.
  - reflexivity.
  - discriminate.
  - reflexivity.
Defined.

(** C8 as stated fails: two calls for one role that read the same millisecond
    are both answered with one identifier, and the second overwrites the
    session of the first. *)
Lemma start_session_same_millisecond_collides :
  issued_id (fst (start_session (RT := reference_runtime) ada 1700000000000
                    "2023-11-14T22:13:20.000100" initial_state))
    = Some "session_team_lead_1700000000000"%string
  ∧ issued_id (fst (start_session (RT := reference_runtime) grace 1700000000000
                      "2023-11-14T22:13:20.000900"
                      (snd (start_session (RT := reference_runtime) ada 1700000000000
                              "2023-11-14T22:13:20.000100" initial_state))))
    = Some "session_team_lead_1700000000000"%string
  ∧ map (λ kv, (fst kv, Session.candidate (snd kv)))
        (sessions
           (snd (start_session (RT := reference_runtime) grace 1700000000000
                   "2023-11-14T22:13:20.000900"
                   (snd (start_session (RT := reference_runtime) ada 1700000000000
                           "2023-11-14T22:13:20.000100" initial_state)))))
    = [("session_team_lead_1700000000000"%string, "Grace"%string)].
Proof. repeat split; vm_compute; reflexivity. Qed.

(** ** The exception monad and dictionaries *)

Lemma bind_Ok {A B : Type} (m : result A) (k : A → result B) b :
  m ≫= k = Ok b → ∃ a, m = Ok a ∧ k a = Ok b.
Proof. destruct m as [a|e]; simpl; [eauto | discriminate]. Qed.

Lemma bind_Raise {A B : Type} (m : result A) (k : A → result B) e :
  m ≫= k = Raise e → m = Raise e ∨ ∃ a, m = Ok a ∧ k a = Raise e.
Proof. destruct m as [a|e']; simpl; [eauto | intros [= ->]; auto]. Qed.

Lemma assoc_keys {V : Type} k (d : list (string * V)) :
  k ∈ keys d ↔ is_Some (assoc k d).
Proof.
  induction d as [|[k' v] d IH]; simpl.
  - split; [intros H; inversion H | intros [? [=]]].
  - rewrite elem_of_cons, IH. destruct (String.eqb_spec k k') as [->|Hne].
    + split; eauto.
    + split; [intros [?|?]; [done | done] | auto].
Qed.


Lemma last_key_None {V : Type} (d : list (string * V)) :
  last_key d = None ↔ d = [].
Proof.
  unfold last_key, keys. rewrite last_None.
  destruct d; simpl; split; congruence.
Qed.

Lemma assoc_dict_pop {V : Type} k (d : list (string * V)) :
  assoc k (dict_pop k d) = None.
Proof.
  induction d as [|[k' v] d IH]; simpl; [reflexivity|].
  destruct (String.eqb k k') eqn:E; [exact IH|].
  simpl. rewrite E. exact IH.
Qed.

Lemma assoc_dict_pop_ne {V : Type} k k' (d : list (string * V)) :
  k ≠ k' → assoc k' (dict_pop k d) = assoc k' d.
Proof.
  intros Hne. induction d as [|[k0 v] d IH]; simpl; [reflexivity|].
  destruct (String.eqb_spec k k0) as [<-|Hk].
  - rewrite IH. destruct (String.eqb_spec k' k); congruence.
  - simpl. rewrite IH. reflexivity.
Qed.

Lemma keys_dict_pop {V : Type} k k' (d : list (string * V)) :
  k' ∈ keys (dict_pop k d) → k' ∈ keys d.
Proof.
  induction d as [|[k0 v] d IH]; simpl; [auto|].
  destruct (String.eqb k k0); simpl; rewrite ?elem_of_cons; intuition.
Qed.

Lemma assoc_dict_set {V : Type} k (v : V) d :
  assoc k (dict_set k v d) = Some v.
Proof.
  induction d as [|[k' v'] d IH]; simpl.
  - rewrite String.eqb_refl. reflexivity.
  - destruct (String.eqb k k') eqn:E; simpl.
    + rewrite String.eqb_refl. reflexivity.
    + rewrite E. exact IH.
Qed.

Lemma assoc_dict_set_ne {V : Type} k k' (v : V) d :
  k ≠ k' → assoc k' (dict_set k v d) = assoc k' d.
Proof.
  intros Hne. induction d as [|[k0 v0] d IH]; simpl.
  - destruct (String.eqb_spec k' k); congruence.
  - destruct (String.eqb_spec k k0) as [<-|Hk]; simpl.
    + destruct (String.eqb_spec k' k); congruence.
    + rewrite IH. reflexivity.
Qed.

Lemma keys_dict_set {V : Type} k (v : V) d k' :
  k' ∈ keys (dict_set k v d) ↔ k' = k ∨ k' ∈ keys d.
Proof.
  rewrite !assoc_keys. destruct (decide (k = k')) as [<-|Hne].
  - rewrite assoc_dict_set. split; eauto.
  - rewrite assoc_dict_set_ne by done. split; [auto | intros [?|?]; congruence || done].
Qed.

(** [sessions] stays in creation order: a new key goes last, an existing key
    keeps its place, and a removal leaves the order of the others. *)
Lemma keys_dict_set_new {V : Type} k (v : V) d :
  assoc k d = None → keys (dict_set k v d) = keys d ++ [k].
Proof.
  induction d as [|[k' v'] d IH]; simpl; [reflexivity|].
  destruct (String.eqb k k'); [discriminate|].
  intros H. simpl. now rewrite IH.
Qed.

Lemma keys_dict_set_old {V : Type} k (v : V) d :
  is_Some (assoc k d) → keys (dict_set k v d) = keys d.
Proof.
  induction d as [|[k' v'] d IH]; simpl; [intros [? [=]]|].
  destruct (String.eqb_spec k k') as [->|Hne]; [reflexivity|].
  intros H. simpl. now rewrite IH.
Qed.

Lemma keys_dict_pop_filter {V : Type} k (d : list (string * V)) :
  keys (dict_pop k d) = filter (λ k', k' ≠ k) (keys d).
Proof.
  induction d as [|[k' v'] d IH]; simpl; [reflexivity|].
  rewrite filter_cons. simpl.
  destruct (String.eqb_spec k k') as [->|Hne].
  - rewrite decide_False by auto. exact IH.
  - rewrite decide_True by auto. simpl. now rewrite IH.
Qed.


(** ** Inversion of the report pipeline *)

Ltac bind_inv H :=
  let x := fresh "x" in
  let E := fresh "E" in
  apply bind_Ok in H as (x & E & H).

Tactic Notation "bind_inv_as" hyp(H) ident(x) ident(E) :=
  apply bind_Ok in H as (x & E & H).

Section Webhook.
Context `{RT : Runtime}.

Lemma build_db_data_inv sid session d structured transcript row :
  build_db_data sid session d structured transcript = Ok row →
  DbData.session_id row = sid
  ∧ DbData.user_email row = Session.user_email session
  ∧ DbData.candidate_name row = Session.candidate session
  ∧ DbData.role row = Session.role_title session
  ∧ DbData.duration_minutes row = d
  ∧ float_field structured "overall" = Ok (DbData.overall_score row)
  ∧ py_slice 3000 transcript = Ok (DbData.transcript row)
  ∧ text_field structured "rec" = Ok (DbData.recommendation row)
  ∧ text_field structured "str1" = Ok (DbData.strength_1 row)
  ∧ text_field structured "str2" = Ok (DbData.strength_2 row)
  ∧ text_field structured "str3" = Ok (DbData.strength_3 row)
  ∧ text_field structured "imp1" = Ok (DbData.improvement_1 row)
  ∧ text_field structured "imp2" = Ok (DbData.improvement_2 row)
  ∧ int_field structured "s1" = Ok (DbData.score_1 row)
  ∧ int_field structured "s2" = Ok (DbData.score_2 row)
  ∧ int_field structured "s3" = Ok (DbData.score_3 row)
  ∧ int_field structured "s4" = Ok (DbData.score_4 row)
  ∧ int_field structured "s5" = Ok (DbData.score_5 row).
Proof.
  unfold build_db_data. intros H.
  do 13 bind_inv H.
  injection H as <-. simpl. repeat split; assumption.
Qed.

Lemma prepare_report_Ready message st sid k row :
  prepare_report message st = Ok (Ready sid k row) →
  ∃ call_data call_id session transcript structured start end_,
    get_default message "call" (JObj []) = Ok call_data
    ∧ get call_data "id" = Ok call_id
    ∧ key_of call_id = Ok k
    ∧ resolve_session_id st k = Some sid
    ∧ sid ≠ EmptyString
    ∧ assoc sid (sessions st) = Some session
    ∧ get_default message "transcript" (JStr "No transcript available") = Ok transcript
    ∧ extract_structured message = Ok structured
    ∧ get call_data "startedAt" = Ok start
    ∧ get call_data "endedAt" = Ok end_
    ∧ build_db_data sid session (duration_min start end_) structured transcript = Ok row.
Proof.
  unfold prepare_report. intros H.
  bind_inv_as H call_data Hc. bind_inv_as H call_id Hi. bind_inv_as H k' Hk.
  destruct (resolve_session_id st k') as [sid'|] eqn:Hres; [|discriminate].
  destruct (String.eqb_spec sid' "") as [|Hne]; [discriminate|].
  destruct (assoc sid' (sessions st)) as [session|] eqn:Hs; [|discriminate].
  do 5 bind_inv H.
  injection H as <- <- <-.
  eexists _, _, _, _, _, _, _. repeat split; eassumption.
Qed.

Lemma prepare_report_not_found payload message st k :
  get_default payload "message" (JObj []) = Ok message →
  call_key_of payload = Ok k →
  (∀ sid, resolve_session_id st k = Some sid →
          sid = EmptyString ∨ assoc sid (sessions st) = None) →
  prepare_report message st = Ok NotFound.
Proof.
  intros Hm Hk Hres. unfold call_key_of in Hk. rewrite Hm in Hk. simpl in Hk.
  unfold prepare_report.
  bind_inv Hk. bind_inv Hk. rewrite E. simpl. rewrite E0. simpl. rewrite Hk. simpl.
  destruct (resolve_session_id st k) as [sid|]; [|reflexivity].
  destruct (Hres sid eq_refl) as [->|Hs]; [reflexivity|].
  rewrite Hs. destruct (String.eqb sid ""); reflexivity.
Qed.

Lemma prepare_report_key payload message st sid k row :
  get_default payload "message" (JObj []) = Ok message →
  prepare_report message st = Ok (Ready sid k row) →
  call_key_of payload = Ok k.
Proof.
  intros Hm H. apply prepare_report_Ready in H
    as (call_data & call_id & ? & ? & ? & ? & ? & Hc & Hi & Hk & _).
  unfold call_key_of. rewrite Hm. simpl. rewrite Hc. simpl. rewrite Hi. exact Hk.
Qed.

Lemma dispatch_event insert payload st event :
  event_type payload = Ok event →
  ∃ message,
    get_default payload "message" (JObj []) = Ok message
    ∧ dispatch insert (Some payload) st =
        if event_is event "assistant-request" then assistant_request message st
        else if event_is event "end-of-call-report"
             then end_of_call_report insert message st
             else Ok (StatusOk, st).
Proof.
  unfold event_type, dispatch. intros H. simpl.
  bind_inv H. bind_inv H. exists x. split; [assumption|].
  rewrite E. simpl. rewrite E0. simpl. rewrite H. reflexivity.
Qed.

Ltac case_bind :=
  match goal with
  | |- context [mbind _ ?m] => destruct m eqn:?; simpl
  end.

(** What one delivery can do to the dictionaries: nothing, link a call, or
    retire a session after its row went in. *)
Lemma vapi_webhook_effect insert body st :
  snd (vapi_webhook insert body st) = st
  ∨ (∃ assistant_key call_key sid,
        assistant_to_session st !! assistant_key = Some sid
        ∧ sid ≠ EmptyString
        ∧ vapi_webhook insert body st =
            (StatusOk,
             mkState (sessions st) (<[call_key := sid]> (call_to_session st))
                     (assistant_to_session st) (evaluations st)))
  ∨ (∃ payload event sid call_key row,
        body = Some payload
        ∧ event_type payload = Ok event
        ∧ event_is event "end-of-call-report" = true
        ∧ report_of payload st = Ok (Ready sid call_key row)
        ∧ insert row = None
        ∧ vapi_webhook insert body st =
            (StatusOk,
             mkState (dict_pop sid (sessions st)) (delete call_key (call_to_session st))
                     (assistant_to_session st) (evaluations st ++ [row]))).
Proof.
  unfold vapi_webhook, dispatch, report_of, event_type, try_except.
  destruct body as [payload|]; simpl; [|auto].
  destruct (get_default payload "message" (JObj [])) as [message|] eqn:Hm;
    simpl; [|auto].
  destruct (get message "type") as [t|] eqn:Ht; simpl; [|auto].
  destruct (py_or t (get payload "type")) as [event|] eqn:He; simpl; [|auto].
  destruct (event_is event "assistant-request").
  - unfold assistant_request.
    do 5 (case_bind; [|auto]).
    destruct (assistant_to_session st !! _) as [sid|] eqn:Ha; simpl; [|auto].
    destruct (String.eqb_spec sid "") as [|Hne]; simpl; [auto|].
    case_bind; [|auto].
    right; left. eauto 10.
  - destruct (event_is event "end-of-call-report") eqn:Hev; simpl; [|auto].
    unfold end_of_call_report.
    destruct (prepare_report message st) as [[|sid k row]|e] eqn:Hp; simpl;
      [auto| |auto].
    destruct (insert row) as [msg|] eqn:Hi; simpl; [auto|].
    right; right. exists payload, event, sid, k, row. repeat split; auto.
    + rewrite Hm. simpl. rewrite Ht. exact He.
    + rewrite Hm. exact Hp.
Qed.

Lemma event_is_report event :
  event_is event "end-of-call-report" = true →
  event_is event "assistant-request" = false.
Proof.
  destruct event; simpl; try discriminate.
  intros H. apply String.eqb_eq in H. subst. reflexivity.
Qed.

Lemma dispatch_report insert payload st event :
  event_type payload = Ok event →
  event_is event "end-of-call-report" = true →
  ∃ message,
    get_default payload "message" (JObj []) = Ok message
    ∧ dispatch insert (Some payload) st = end_of_call_report insert message st.
Proof.
  intros He Hev. destruct (dispatch_event insert payload st event He)
    as (message & Hm & ->).
  rewrite (event_is_report _ Hev), Hev. eauto.
Qed.

(** ** An invariant of the reachable states *)

Lemma start_session_nonempty req timestamp started st :
  identifiers_nonempty st →
  identifiers_nonempty (snd (start_session req timestamp started st)).
Proof.
  intros (Hs & Hc & Ha). unfold start_session.
  destruct (assoc _ ROLES) as [role|]; [|done].
  destruct (Role.assistant_id role) as [a|]; [|done].
  destruct (String.eqb a ""); [done|].
  destruct (negb _); [done|].
  split; [|split]; simpl.
  - intros sid Hin. apply keys_dict_set in Hin as [->|Hin]; [|auto].
    apply make_session_id_nonempty.
  - exact Hc.
  - intros k sid. rewrite lookup_insert. case_decide.
    + intros [= <-]. apply make_session_id_nonempty.
    + apply Ha.
Qed.

Lemma vapi_webhook_nonempty insert body st :
  identifiers_nonempty st →
  identifiers_nonempty (snd (vapi_webhook insert body st)).
Proof.
  intros (Hs & Hc & Ha).
  destruct (vapi_webhook_effect insert body st)
    as [-> | [(ka & kc & sid & Hka & Hne & ->)
            | (payload & event & sid & k & row & _ & _ & _ & _ & _ & ->)]];
    [done | |]; (split; [|split]); simpl; auto.
  - intros k sid'. rewrite lookup_insert. case_decide; [congruence | apply Hc].
  - intros sid' Hin. apply Hs. eapply keys_dict_pop, Hin.
  - intros k' sid'. rewrite lookup_delete. case_decide; [done | apply Hc].
Qed.

Lemma handle_nonempty r st :
  identifiers_nonempty st → identifiers_nonempty (handle r st).
Proof.
  destruct r as [req t started | insert body]; simpl.
  - destruct (SessionRequest.valid req); auto using start_session_nonempty.
  - apply vapi_webhook_nonempty.
Qed.

Lemma reachable_nonempty st : reachable st → identifiers_nonempty st.
Proof.
  induction 1 as [|st r _ IH].
  - split; [|split]; simpl.
    + intros sid H. inversion H.
    + intros k sid. rewrite lookup_empty. discriminate.
    + intros k sid. rewrite lookup_empty. discriminate.
  - now apply handle_nonempty.
Qed.

Lemma reachable_run rs st : reachable st → reachable (run rs st).
Proof.
  revert st. induction rs as [|r rs IH]; simpl; intros st H; [exact H|].
  apply IH. now constructor.
Qed.

(** ** Resolving the session of a report *)

Lemma prepare_report_NotFound message st :
  prepare_report message st = Ok NotFound →
  ∃ call_data call_id k,
    get_default message "call" (JObj []) = Ok call_data
    ∧ get call_data "id" = Ok call_id
    ∧ key_of call_id = Ok k
    ∧ ∀ sid, resolve_session_id st k = Some sid →
             sid = EmptyString ∨ assoc sid (sessions st) = None.
Proof.
  unfold prepare_report. intros H.
  bind_inv_as H call_data Hc. bind_inv_as H call_id Hi. bind_inv_as H k Hk.
  exists call_data, call_id, k. repeat split; try assumption.
  intros sid Hres. rewrite Hres in H.
  destruct (String.eqb_spec sid "") as [|Hne]; [auto|].
  destruct (assoc sid (sessions st)); [|auto].
  do 5 bind_inv H. discriminate.
Qed.

Lemma report_of_message payload message st :
  get_default payload "message" (JObj []) = Ok message →
  report_of payload st = prepare_report message st.
Proof. unfold report_of. intros ->. reflexivity. Qed.

Lemma call_key_of_message payload message call_data call_id :
  get_default payload "message" (JObj []) = Ok message →
  get_default message "call" (JObj []) = Ok call_data →
  get call_data "id" = Ok call_id →
  call_key_of payload = key_of call_id.
Proof. unfold call_key_of. intros -> Hc Hi. simpl. rewrite Hc. simpl. now rewrite Hi. Qed.



(** C4: an end-of-call report whose call identifier has no entry in
    [call_to_session], received while [sessions] is empty, is answered with
    the error payload session not found; nothing is inserted and the three
    dictionaries are as before, whatever the persistence client would do. *)
Theorem unknown_call_without_session insert payload st event k :
  event_type payload = Ok event →
  event_is event "end-of-call-report" = true →
  call_key_of payload = Ok k →
  call_to_session st !! k = None →
  sessions st = [] →
  vapi_webhook insert (Some payload) st = (StatusError (Text "session not found"), st)
  ∧ vapi_webhook insert (Some payload) (snd (vapi_webhook insert (Some payload) st))
    = vapi_webhook insert (Some payload) st.
Proof.
  intros He Hev Hk Hnone Hempty.
  assert (H : vapi_webhook insert (Some payload) st
              = (StatusError (Text "session not found"), st)).
  { destruct (dispatch_report insert payload st event He Hev) as (message & Hm & Hd).
    unfold vapi_webhook. rewrite Hd. unfold end_of_call_report.
    rewrite (prepare_report_not_found payload message st k Hm Hk); [reflexivity|].
    intros sid. unfold resolve_session_id. rewrite Hnone, Hempty. discriminate. }
  split; [exact H|]. rewrite H. simpl. exact H.
Qed.

(** C10: when the call identifier of an end-of-call report is linked to a
    session identifier that is no longer in [sessions], the report is answered
    with session not found and the state is as before; line 259 does not go on
    to the last open session, whatever [sessions] holds. *)
Theorem stale_link_is_not_found insert payload st event k sid :
  reachable st →
  event_type payload = Ok event →
  event_is event "end-of-call-report" = true →
  call_key_of payload = Ok k →
  call_to_session st !! k = Some sid →
  assoc sid (sessions st) = None →
  resolve_session_id st k = Some sid
  ∧ vapi_webhook insert (Some payload) st = (StatusError (Text "session not found"), st).
Proof.
  intros Hreach He Hev Hk Hlink Hgone.
  destruct (reachable_nonempty st Hreach) as (_ & Hc & _).
  specialize (Hc k sid Hlink). apply String.eqb_neq in Hc.
  assert (Hres : resolve_session_id st k = Some sid).
  { unfold resolve_session_id. now rewrite Hlink, Hc. }
  split; [exact Hres|].
  destruct (dispatch_report insert payload st event He Hev) as (message & Hm & Hd).
  unfold vapi_webhook. rewrite Hd. unfold end_of_call_report.
  rewrite (prepare_report_not_found payload message st k Hm Hk); [reflexivity|].
  intros sid'. rewrite Hres. intros [= <-]. auto.
Qed.

(** ** Commit and cleanup *)

Lemma start_session_keeps_sessions req timestamp started st sid :
  is_Some (assoc sid (sessions st)) →
  is_Some (assoc sid (sessions (snd (start_session req timestamp started st)))).
Proof.
  intros H. unfold start_session.
  destruct (assoc _ ROLES) as [role|]; [|done].
  destruct (Role.assistant_id role) as [a|]; [|done].
  destruct (String.eqb a ""); [done|].
  destruct (negb _); [done|].
  simpl. apply assoc_keys, keys_dict_set. right. now apply assoc_keys.
Qed.

(** C5: when the insert of an end-of-call report raises, the handler answers
    with the error payload carrying the text of the exception, and the state
    is the state of entry: the resolved session is still in [sessions] and
    the entry of the call in [call_to_session] is as it was. *)
Theorem insert_failure_keeps_session insert payload st event sid k row msg :
  event_type payload = Ok event →
  event_is event "end-of-call-report" = true →
  report_of payload st = Ok (Ready sid k row) →
  insert row = Some msg →
  ∃ st',
    vapi_webhook insert (Some payload) st = (StatusError (StrOf (InsertFailed msg)), st')
    ∧ st' = st
    ∧ is_Some (assoc sid (sessions st'))
    ∧ call_to_session st' !! k = call_to_session st !! k
    ∧ evaluations st' = evaluations st.
Proof.
  intros He Hev Hp Hi.
  destruct (dispatch_report insert payload st event He Hev) as (message & Hm & Hd).
  rewrite (report_of_message _ _ _ Hm) in Hp.
  exists st. unfold vapi_webhook. rewrite Hd. unfold end_of_call_report.
  rewrite Hp. simpl. rewrite Hi. simpl.
  repeat split; try reflexivity.
  apply prepare_report_Ready in Hp
    as (? & ? & session & ? & ? & ? & ? & _ & _ & _ & _ & _ & Hs & _).
  rewrite Hs. eauto.
Qed.

(** C6: when the insert of an end-of-call report returns, the handler answers
    ok, the row is in the table, the resolved session is out of [sessions] and
    the call identifier of the event is out of [call_to_session], so a later
    lookup of either fails.  And no request takes a session out of [sessions]
    in any other way: if a session is there before a request and not after
    it, the request was an end-of-call report whose row, the row of that
    session, was inserted. *)
Theorem insert_success_retires_session insert payload st event sid k row :
  event_type payload = Ok event →
  event_is event "end-of-call-report" = true →
  report_of payload st = Ok (Ready sid k row) →
  insert row = None →
  (∃ st',
      vapi_webhook insert (Some payload) st = (StatusOk, st')
      ∧ call_key_of payload = Ok k
      ∧ assoc sid (sessions st') = None
      ∧ call_to_session st' !! k = None
      ∧ resolve_session_id st' k = last_key (sessions st')
      ∧ evaluations st' = evaluations st ++ [row]
      ∧ DbData.session_id row = sid)
  ∧ (∀ r st0 sid0,
        is_Some (assoc sid0 (sessions st0)) →
        assoc sid0 (sessions (handle r st0)) = None →
        ∃ insert0 payload0 event0 k0 row0,
          r = PostWebhookVapi insert0 (Some payload0)
          ∧ event_type payload0 = Ok event0
          ∧ event_is event0 "end-of-call-report" = true
          ∧ report_of payload0 st0 = Ok (Ready sid0 k0 row0)
          ∧ insert0 row0 = None
          ∧ fst (vapi_webhook insert0 (Some payload0) st0) = StatusOk
          ∧ evaluations (handle r st0) = evaluations st0 ++ [row0]).
Proof.
  intros He Hev Hp Hi. split.
  - destruct (dispatch_report insert payload st event He Hev) as (message & Hm & Hd).
    rewrite (report_of_message _ _ _ Hm) in Hp.
    eexists. unfold vapi_webhook. rewrite Hd. unfold end_of_call_report.
    rewrite Hp. simpl. rewrite Hi. simpl. split; [reflexivity|]. simpl.
    split; [eapply prepare_report_key; eassumption|].
    split; [apply assoc_dict_pop|].
    split; [apply lookup_delete_eq|].
    split; [unfold resolve_session_id; simpl; now rewrite lookup_delete_eq|].
    split; [reflexivity|].
    apply prepare_report_Ready in Hp
      as (? & ? & ? & ? & ? & ? & ? & _ & _ & _ & _ & _ & _ & _ & _ & _ & _ & Hb).
    now apply build_db_data_inv in Hb as (? & _).
  - intros r st0 sid0 Hbefore Hafter.
    destruct r as [req t started | insert0 body]; simpl in Hafter.
    + exfalso. destruct (SessionRequest.valid req).
      * apply (start_session_keeps_sessions req t started) in Hbefore.
        rewrite Hafter in Hbefore. now destruct Hbefore.
      * rewrite Hafter in Hbefore. now destruct Hbefore.
    + destruct (vapi_webhook_effect insert0 body st0)
        as [Hsame | [(ka & kc & sid' & _ & _ & Heq)
                  | (payload0 & event0 & sid' & k0 & row0 & -> & He0 & Hev0 & Hp0 & Hi0 & Heq)]].
      * rewrite Hsame in Hafter. rewrite Hafter in Hbefore. now destruct Hbefore.
      * rewrite Heq in Hafter. simpl in Hafter.
        rewrite Hafter in Hbefore. now destruct Hbefore.
      * destruct (decide (sid' = sid0)) as [->|Hne].
        -- exists insert0, payload0, event0, k0, row0. simpl. rewrite Heq. simpl. auto 10.
        -- rewrite Heq in Hafter. simpl in Hafter.
           rewrite assoc_dict_pop_ne in Hafter by exact Hne.
           rewrite Hafter in Hbefore. now destruct Hbefore.
Qed.

(** C7: whatever the request body, the webhook answers with [{status: ok}]
    or with an error payload, whose message is session not found or the text
    of an exception, and an error leaves the state as it was.  An event type
    other than the two known ones is acknowledged with ok and changes
    nothing.  An exception raised anywhere in the dispatch is turned into
    the error payload with its text. *)
Theorem webhook_always_answers insert body st :
  ((∃ st', vapi_webhook insert body st = (StatusOk, st'))
   ∨ vapi_webhook insert body st = (StatusError (Text "session not found"), st)
   ∨ (∃ e, vapi_webhook insert body st = (StatusError (StrOf e), st)))
  ∧ (∀ payload event,
        body = Some payload →
        event_type payload = Ok event →
        event_is event "assistant-request" = false →
        event_is event "end-of-call-report" = false →
        vapi_webhook insert body st = (StatusOk, st))
  ∧ (∀ e, dispatch insert body st = Raise e →
          vapi_webhook insert body st = (StatusError (StrOf e), st)).
Proof.
  split; [|split].
  - unfold vapi_webhook, try_except.
    destruct (dispatch insert body st) as [[resp st']|e] eqn:Hd; [|eauto].
    revert Hd. unfold dispatch. intros Hd.
    bind_inv_as Hd payload Hb. bind_inv_as Hd message Hm.
    bind_inv_as Hd t Ht. bind_inv_as Hd event He.
    destruct (event_is event "assistant-request").
    + unfold assistant_request in Hd. do 4 bind_inv Hd.
      bind_inv_as Hd assistant_key Hk.
      destruct (assistant_to_session st !! assistant_key) as [sid|].
      * destruct (String.eqb sid ""); [injection Hd as <- <-; eauto|].
        bind_inv Hd. injection Hd as <- <-. eauto.
      * injection Hd as <- <-. eauto.
    + destruct (event_is event "end-of-call-report"); [|injection Hd as <- <-; eauto].
      unfold end_of_call_report in Hd. bind_inv_as Hd p Hp.
      destruct p as [|sid k row]; [injection Hd as <- <-; auto|].
      destruct (insert row); injection Hd as <- <-; eauto.
  - intros payload event -> He Ha Hr.
    destruct (dispatch_event insert payload st event He) as (message & Hm & Hd).
    unfold vapi_webhook. rewrite Hd, Ha, Hr. reflexivity.
  - intros e Hd. unfold vapi_webhook. rewrite Hd. reflexivity.
Qed.

End Webhook.

(** ** Normalising the report *)

Section Normalizer.
Context `{RT : Runtime}.

Lemma report_committed insert payload st st' event :
  event_type payload = Ok event →
  event_is event "end-of-call-report" = true →
  vapi_webhook insert (Some payload) st = (StatusOk, st') →
  ∃ message sid k row,
    get_default payload "message" (JObj []) = Ok message
    ∧ prepare_report message st = Ok (Ready sid k row)
    ∧ insert row = None
    ∧ evaluations st' = evaluations st ++ [row].
Proof.
  intros He Hev.
  destruct (dispatch_report insert payload st event He Hev) as (message & Hm & Hd).
  unfold vapi_webhook. rewrite Hd. unfold end_of_call_report.
  destruct (prepare_report message st) as [[|sid k row]|e] eqn:Hp; simpl;
    [discriminate| |discriminate].
  destruct (insert row) eqn:Hi; simpl; [discriminate|].
  intros [= <-]. simpl. eauto 10.
Qed.

Lemma text_field_inv structured key s :
  text_field structured key = Ok s →
  ∃ v, get_default structured key (JStr "N/A") = Ok v ∧ s = str_take 500 (py_str v).
Proof.
  unfold text_field. intros H. bind_inv H. injection H as <-. eauto.
Qed.

(** C9: in the row of a committed report every free-text column is the first
    500 characters of the text extracted for it, so a text longer than 500
    characters is cut to exactly 500 and a shorter one is kept whole; and a
    transcript that is a string is cut the same way at 3000 characters. *)
Theorem committed_text_is_truncated insert payload st st' event :
  event_type payload = Ok event →
  event_is event "end-of-call-report" = true →
  vapi_webhook insert (Some payload) st = (StatusOk, st') →
  ∃ row message structured transcript,
    evaluations st' = evaluations st ++ [row]
    ∧ get_default payload "message" (JObj []) = Ok message
    ∧ extract_structured message = Ok structured
    ∧ get_default message "transcript" (JStr "No transcript available") = Ok transcript
    ∧ (∀ key field, (key, field) ∈ text_fields →
         ∃ v, get_default structured key (JStr "N/A") = Ok v
              ∧ field row = str_take 500 (py_str v)
              ∧ (String.length (field row) ≤ 500)%nat
              ∧ ((500 < String.length (py_str v))%nat →
                 String.length (field row) = 500%nat)
              ∧ ((String.length (py_str v) ≤ 500)%nat → field row = py_str v))
    ∧ (∀ s, transcript = JStr s →
         DbData.transcript row = JStr (str_take 3000 s)
         ∧ (String.length (str_take 3000 s) ≤ 3000)%nat
         ∧ ((3000 < String.length s)%nat →
            String.length (str_take 3000 s) = 3000%nat)
         ∧ ((String.length s ≤ 3000)%nat → str_take 3000 s = s)).
Proof.
  intros He Hev Hw.
  destruct (report_committed insert payload st st' event He Hev Hw)
    as (message & sid & k & row & Hm & Hp & _ & Hrows).
  apply prepare_report_Ready in Hp
    as (? & ? & session & transcript & structured & start & end_
        & _ & _ & _ & _ & _ & _ & Ht & Hx & _ & _ & Hb).
  apply build_db_data_inv in Hb
    as (_ & _ & _ & _ & _ & _ & Hslice & Hrec & H1 & H2 & H3 & H4 & H5 & _).
  exists row, message, structured, transcript.
  repeat (split; [assumption|]). split.
  - assert (Hfield : ∀ key s, text_field structured key = Ok s →
              ∃ v, get_default structured key (JStr "N/A") = Ok v
                   ∧ s = str_take 500 (py_str v)
                   ∧ (String.length s ≤ 500)%nat
                   ∧ ((500 < String.length (py_str v))%nat → String.length s = 500%nat)
                   ∧ ((String.length (py_str v) ≤ 500)%nat → s = py_str v)).
    { intros key s Hs. apply text_field_inv in Hs as (v & Hv & ->).
      exists v. rewrite str_take_length. repeat split; auto; try lia.
      apply str_take_all. }
    intros key field Hin. unfold text_fields in Hin.
    repeat (apply elem_of_cons in Hin as [[= -> ->]|Hin]; [now apply Hfield|]).
    inversion Hin.
  - intros s ->. simpl in Hslice. injection Hslice as <-.
    rewrite str_take_length. repeat split; try lia. apply str_take_all.
Qed.

End Normalizer.

(** ** Duration *)

Section Duration.
Context `{RT : Runtime}.

Lemma iso_to_ms_parsed s ms :
  fromisoformat_ms (replace_Z s) = Some ms → iso_to_ms (JStr s) = ms.
Proof. unfold iso_to_ms. intros ->. reflexivity. Qed.

Lemma iso_to_ms_unparsed s :
  fromisoformat_ms (replace_Z s) = None → iso_to_ms (JStr s) = 0.
Proof. unfold iso_to_ms. intros ->. reflexivity. Qed.

Lemma iso_to_ms_not_str v :
  (∀ s, v ≠ JStr s) → iso_to_ms v = 0.
Proof. destruct v; try reflexivity. intros H. now destruct (H s). Qed.

(** Both timestamps parse: the floor of the difference in minutes, at least 1. *)
Lemma duration_parsed s e a b :
  s ≠ EmptyString → e ≠ EmptyString →
  fromisoformat_ms (replace_Z s) = Some a →
  fromisoformat_ms (replace_Z e) = Some b →
  duration_min (JStr s) (JStr e) = Z.max 1 ((b - a) / 60000).
Proof.
  intros Hs He Ha Hb. unfold duration_min. simpl.
  apply String.eqb_neq in Hs, He. rewrite Hs, He. simpl.
  now rewrite (iso_to_ms_parsed _ _ Ha), (iso_to_ms_parsed _ _ Hb).
Qed.

(** A timestamp is missing: [None], or any other falsy value. *)
Lemma duration_missing start end_ :
  truthy start = false ∨ truthy end_ = false → duration_min start end_ = 1.
Proof.
  unfold duration_min. intros [->| ->]; [reflexivity|].
  now rewrite andb_false_r.
Qed.

(** The end does not parse and the start is not before 1970. *)
Lemma duration_unparsed_end start e :
  fromisoformat_ms (replace_Z e) = None → 0 ≤ iso_to_ms start →
  duration_min start (JStr e) = 1.
Proof.
  intros He Hs. unfold duration_min.
  destruct (truthy start && truthy (JStr e)); [|reflexivity].
  rewrite (iso_to_ms_unparsed _ He).
  assert ((0 - iso_to_ms start) / 60000 ≤ 0); [|lia].
  apply Z.div_le_upper_bound; lia.
Qed.

(** The start does not parse and the end does: the end's own distance from
    1970 comes out, not 1. *)
Lemma duration_unparsed_start s e b :
  s ≠ EmptyString → e ≠ EmptyString →
  fromisoformat_ms (replace_Z s) = None →
  fromisoformat_ms (replace_Z e) = Some b →
  120000 ≤ b →
  duration_min (JStr s) (JStr e) = b / 60000 ∧ 1 < duration_min (JStr s) (JStr e).
Proof.
  intros Hs He Ha Hb Hlarge. unfold duration_min. simpl.
  apply String.eqb_neq in Hs, He. rewrite Hs, He. simpl.
  rewrite (iso_to_ms_unparsed _ Ha), (iso_to_ms_parsed _ _ Hb), Z.sub_0_r.
  assert (2 ≤ b / 60000) by (apply Z.div_le_lower_bound; lia).
  lia.
Qed.

End Duration.

Example duration_seven_minutes :
  duration_min (RT := reference_runtime)
    (JStr "2024-01-01T10:00:00Z") (JStr "2024-01-01T10:07:30Z") = 7.
Proof. reflexivity. Qed.

Example duration_missing_end :
  duration_min (RT := reference_runtime) (JStr "2024-01-01T10:00:00Z") JNull = 1.
Proof. reflexivity. Qed.

(** C2, which asks for a duration of 1 whenever a timestamp is missing or
    does not parse, at a start that does not parse: [iso_to_ms] answers 0 for
    it, the guard of line 287 only looks at truth values, and the row is
    committed with the minutes from 1970 to the end of the call. *)
Theorem duration_of_unparseable_start :
  iso_to_ms (RT := reference_runtime) (JStr "not-a-date") = 0
  ∧ iso_to_ms (RT := reference_runtime) (JStr "2024-01-01T10:07:30Z") = 1704103650000
  ∧ duration_min (RT := reference_runtime)
      (JStr "not-a-date") (JStr "2024-01-01T10:07:30Z") = 28401727
  ∧ fst (vapi_webhook (RT := reference_runtime) accepts
           (Some (timed_report (JStr "not-a-date") (JStr "2024-01-01T10:07:30Z")))
           linked_session) = StatusOk
  ∧ map DbData.duration_minutes
      (evaluations
         (snd (vapi_webhook (RT := reference_runtime) accepts
                 (Some (timed_report (JStr "not-a-date") (JStr "2024-01-01T10:07:30Z")))
                 linked_session))) = [28401727].
Proof. repeat split; vm_compute; reflexivity. Qed.

(** ** The theorems at concrete requests *)

Lemma reachable_one_session : reachable (RT := reference_runtime) one_session.
Proof. apply reachable_run. constructor. Qed.

Lemma reachable_linked_session : reachable (RT := reference_runtime) linked_session.
Proof. apply reachable_run, reachable_one_session. Qed.


Lemma reachable_stale_link : reachable (RT := reference_runtime) stale_link.
Proof. apply reachable_run, reachable_linked_session. Qed.


Lemma unknown_call_without_session_witness :
  vapi_webhook (RT := reference_runtime) accepts
    (Some (report_payload [("id", JStr "call-9")] [])) initial_state
  = (StatusError (Text "session not found"), initial_state).
Proof.
  apply (unknown_call_without_session (RT := reference_runtime) accepts
           (report_payload [("id", JStr "call-9")] []) initial_state
           (JStr "end-of-call-report") (KStr "call-9")).
  - reflexivity.
  - reflexivity.
  - reflexivity.
  - vm_compute. reflexivity.
  - reflexivity.
Defined.

Lemma stale_link_is_not_found_witness :
  keys (sessions stale_link) = ["session_sales_manager_1700000005000"%string]
  ∧ vapi_webhook (RT := reference_runtime) accepts
      (Some (report_payload [("id", JStr "call-2")] [])) stale_link
    = (StatusError (Text "session not found"), stale_link).
Proof.
  split; [vm_compute; reflexivity|].
  apply (stale_link_is_not_found (RT := reference_runtime) accepts
           (report_payload [("id", JStr "call-2")] []) stale_link
           (JStr "end-of-call-report") (KStr "call-2")
           "session_team_lead_1700000000000").
  - exact reachable_stale_link.
  - reflexivity.
  - reflexivity.
  - reflexivity.
  - vm_compute. reflexivity.
  - vm_compute. reflexivity.
Defined.

Lemma insert_failure_keeps_session_witness :
  ∃ st',
    vapi_webhook (RT := reference_runtime) refuses (Some both_shapes) linked_session
      = (StatusError (StrOf (InsertFailed "connection refused")), st')
    ∧ st' = linked_session.
Proof.
  edestruct (insert_failure_keeps_session (RT := reference_runtime) refuses
               both_shapes linked_session (JStr "end-of-call-report")
               "session_team_lead_1700000000000" (KStr "call-1"))
    as (st' & H1 & H2 & _).
  - reflexivity.
  - reflexivity.
  - vm_compute. reflexivity.
  - reflexivity.
  - exists st'. split; [exact H1 | exact H2].
Defined.

Lemma insert_success_retires_session_witness :
  ∃ st',
    vapi_webhook (RT := reference_runtime) accepts (Some both_shapes) linked_session
      = (StatusOk, st')
    ∧ assoc "session_team_lead_1700000000000" (sessions st') = None
    ∧ call_to_session st' !! KStr "call-1" = None.
Proof.
  edestruct (insert_success_retires_session (RT := reference_runtime) accepts
               both_shapes linked_session (JStr "end-of-call-report")
               "session_team_lead_1700000000000" (KStr "call-1"))
    as ((st' & H1 & _ & H2 & H3 & _) & _).
  - reflexivity.
  - reflexivity.
  - vm_compute. reflexivity.
  - reflexivity.
  - exists st'. auto.
Defined.

Lemma committed_text_is_truncated_witness :
  ∃ row,
    evaluations (snd (vapi_webhook (RT := reference_runtime) accepts
                        (Some long_report) linked_session)) = [row]
    ∧ String.length (DbData.recommendation row) = 500%nat
    ∧ DbData.transcript row = JStr (repeat_char "t" 3000).
Proof.
  destruct (committed_text_is_truncated (RT := reference_runtime) accepts long_report
              linked_session
              (snd (vapi_webhook (RT := reference_runtime) accepts
                      (Some long_report) linked_session))
              (JStr "end-of-call-report"))
    as (row & message & structured & transcript & Hrows & Hm & Hx & Ht & Hf & Htr).
  - reflexivity.
  - reflexivity.
  - vm_compute. reflexivity.
  - exists row. split; [exact Hrows|].
    injection Hm as <-. vm_compute in Hx. injection Hx as <-.
    vm_compute in Ht. injection Ht as <-.
    destruct (Hf "rec"%string DbData.recommendation) as (v & Hv & _ & _ & Hlen & _).
    { apply elem_of_cons. left. reflexivity. }
    injection Hv as <-.
    split.
    + apply Hlen. vm_compute. lia.
    + destruct (Htr _ eq_refl) as (-> & _). vm_compute. reflexivity.
Defined.

(** * Further properties of the code *)

(** ** Starting a session and listing the roles *)

Section Lifecycle.
Context `{RT : Runtime}.

Lemma ROLES_keys :
  keys ROLES = ["project_manager"; "team_lead"; "product_owner"; "sales_manager"]%string.
Proof. reflexivity. Qed.

Lemma assoc_In {V : Type} k (v : V) d :
  assoc k d = Some v → In (k, v) d.
Proof.
  induction d as [|[k' v'] d IH]; simpl; [discriminate|].
  destruct (String.eqb_spec k k') as [->|Hne]; [intros [= ->]; auto | auto].
Qed.

Lemma In_assoc {V : Type} k (v : V) d :
  List.NoDup (keys d) → In (k, v) d → assoc k d = Some v.
Proof.
  induction d as [|[k' v'] d IH]; simpl; [intros _ []|].
  intros Hnd [[= -> ->]|Hin].
  - now rewrite String.eqb_refl.
  - inversion Hnd as [|? ? Hnotin Hnd']; subst.
    destruct (String.eqb_spec k k') as [->|Hne]; [|auto].
    exfalso. apply Hnotin. unfold keys. apply in_map_iff. exists (k', v). auto.
Qed.

Lemma ROLES_NoDup : List.NoDup (keys ROLES).
Proof.
  rewrite ROLES_keys.
  repeat (apply List.NoDup_cons;
          [simpl; intros H; repeat (destruct H as [H|H]; [discriminate|]); exact H|]).
  apply List.NoDup_nil.
Qed.

Lemma filter_keys_spec {V : Type} (f : V → bool) (l : list (string * V)) k :
  List.NoDup (keys l) →
  In k (map fst (List.filter (λ kv, f (snd kv)) l))
  ↔ ∃ v, assoc k l = Some v ∧ f v = true.
Proof.
  intros Hnd. rewrite in_map_iff. split.
  - intros ([k' v] & <- & Hin). apply filter_In in Hin as [Hin Hc].
    exists v. split; [|exact Hc]. now apply In_assoc.
  - intros (v & Hv & Hc). exists (k, v). split; [reflexivity|].
    apply filter_In. split; [now apply assoc_In | exact Hc].
Qed.

Lemma filter_keys_NoDup {V : Type} (f : V → bool) (l : list (string * V)) :
  List.NoDup (keys l) → List.NoDup (map fst (List.filter (λ kv, f (snd kv)) l)).
Proof.
  unfold keys. induction l as [|[k v] l IH]; simpl; [constructor|].
  intros Hnd. inversion Hnd as [|? ? Hnotin Hnd']; subst.
  destruct (f v); simpl; [|auto].
  constructor; [|auto].
  intros Hin. apply Hnotin. apply in_map_iff in Hin as ([k' v'] & <- & Hin).
  apply filter_In in Hin as [Hin _]. apply in_map_iff. exists (k', v'). auto.
Qed.

Lemma get_roles_ids :
  map RoleInfo.id get_roles = map fst (List.filter (λ kv, configured (snd kv)) ROLES).
Proof. unfold get_roles. rewrite map_map. reflexivity. Qed.

Lemma listed_configured role :
  In role (map RoleInfo.id get_roles)
  ↔ ∃ v, assoc role ROLES = Some v ∧ configured v = true.
Proof. rewrite get_roles_ids. apply filter_keys_spec, ROLES_NoDup. Qed.

Lemma start_session_cases req timestamp started st :
  match assoc (SessionRequest.role req) ROLES with
  | None =>
      start_session req timestamp started st = (inl (HTTPException 400 "Invalid role"), st)
  | Some v =>
      if configured v then
        if str_contains "@" (SessionRequest.user_email req) then
          ∃ a resp st',
            Role.assistant_id v = Some a
            ∧ start_session req timestamp started st = (inr resp, st')
            ∧ resp = mkStart true (make_session_id (SessionRequest.role req) timestamp)
                       VAPI_PUBLIC_KEY a (Role.scenario v)
            ∧ st' = mkState
                      (dict_set (sessionId resp)
                         (Session.mk (sessionId resp) (SessionRequest.role req)
                            (Role.title v) (SessionRequest.candidate_name req)
                            (Role.criteria v) a (SessionRequest.user_email req) started)
                         (sessions st))
                      (call_to_session st)
                      (<[KStr a := sessionId resp]> (assistant_to_session st))
                      (evaluations st)
        else
          start_session req timestamp started st
          = (inl (HTTPException 400 "Invalid email address"), st)
      else
        start_session req timestamp started st
        = (inl (HTTPException 503 "Assistant not configured"), st)
  end.
Proof.
  unfold start_session, configured.
  destruct (assoc _ ROLES) as [v|]; [|reflexivity].
  destruct (Role.assistant_id v) as [a|]; [|reflexivity].
  destruct (String.eqb a ""); simpl; [reflexivity|].
  destruct (str_contains "@" _); simpl; [|reflexivity].
  eexists _, _, _. repeat split.
Qed.

(** X1: [start_session] checks the role, then the assistant, then the email:
    an unknown role is refused with 400, a role without assistant with 503,
    an email without at sign with 400, in this order of precedence; a refusal
    leaves the dictionaries as they were; and the call succeeds exactly when
    all three checks pass. *)
Theorem start_session_outcome req timestamp started st :
  (assoc (SessionRequest.role req) ROLES = None →
   start_session req timestamp started st = (inl (HTTPException 400 "Invalid role"), st))
  ∧ (∀ v, assoc (SessionRequest.role req) ROLES = Some v → configured v = false →
       start_session req timestamp started st
       = (inl (HTTPException 503 "Assistant not configured"), st))
  ∧ (∀ v, assoc (SessionRequest.role req) ROLES = Some v → configured v = true →
       str_contains "@" (SessionRequest.user_email req) = false →
       start_session req timestamp started st
       = (inl (HTTPException 400 "Invalid email address"), st))
  ∧ (∀ err st', start_session req timestamp started st = (inl err, st') → st' = st)
  ∧ ((∃ resp st', start_session req timestamp started st = (inr resp, st'))
     ↔ ∃ v, assoc (SessionRequest.role req) ROLES = Some v
            ∧ configured v = true
            ∧ str_contains "@" (SessionRequest.user_email req) = true).
Proof.
  pose proof (start_session_cases req timestamp started st) as H.
  split; [|split; [|split; [|split]]].
  - intros Hn. now rewrite Hn in H.
  - intros v Hv Hc. now rewrite Hv, Hc in H.
  - intros v Hv Hc He. now rewrite Hv, Hc, He in H.
  - intros err st' Hs.
    destruct (assoc (SessionRequest.role req) ROLES) as [v|];
      [destruct (configured v);
       [destruct (str_contains "@" (SessionRequest.user_email req))|]|];
      try (rewrite H in Hs; now injection Hs as _ <-).
    destruct H as (a & resp & st0 & _ & Hs0 & _). rewrite Hs0 in Hs. discriminate.
  - split.
    + intros (resp & st' & Hs).
      destruct (assoc (SessionRequest.role req) ROLES) as [v|];
        [|rewrite H in Hs; discriminate].
      exists v. destruct (configured v); [|rewrite H in Hs; discriminate].
      destruct (str_contains "@" (SessionRequest.user_email req));
        [auto | rewrite H in Hs; discriminate].
    + intros (v & Hv & Hc & He). rewrite Hv, Hc, He in H.
      destruct H as (a & resp & st' & _ & Hs & _). eauto.
Qed.

(** X2: a successful [start_session] stores, under the identifier it returns,
    a session with the fields of the request and of the role; sessions under
    other identifiers, the call links and the table are untouched; and the
    assistant of the role is linked to the new session, whatever it was linked
    to before, other assistants keeping their link. *)
Theorem start_session_effect req timestamp started st resp st' :
  start_session req timestamp started st = (inr resp, st') →
  (∃ v,
      assoc (SessionRequest.role req) ROLES = Some v
      ∧ Role.assistant_id v = Some (assistantId resp)
      ∧ scenario resp = Role.scenario v
      ∧ publicKey resp = VAPI_PUBLIC_KEY
      ∧ assoc (sessionId resp) (sessions st')
        = Some (Session.mk (sessionId resp) (SessionRequest.role req) (Role.title v)
                  (SessionRequest.candidate_name req) (Role.criteria v)
                  (assistantId resp) (SessionRequest.user_email req) started))
  ∧ (∀ sid, sid ≠ sessionId resp → assoc sid (sessions st') = assoc sid (sessions st))
  ∧ call_to_session st' = call_to_session st
  ∧ evaluations st' = evaluations st
  ∧ assistant_to_session st' !! KStr (assistantId resp) = Some (sessionId resp)
  ∧ (∀ k, k ≠ KStr (assistantId resp) →
       assistant_to_session st' !! k = assistant_to_session st !! k).
Proof.
  intros Hs. pose proof (start_session_cases req timestamp started st) as H.
  destruct (assoc (SessionRequest.role req) ROLES) as [v|]; [|congruence].
  destruct (configured v); [|congruence].
  destruct (str_contains "@" _); [|congruence].
  destruct H as (a & resp0 & st0 & Ha & Hs0 & Hr & Hst).
  rewrite Hs in Hs0. injection Hs0 as <- <-. subst st'.
  assert (Hid : assistantId resp = a) by (rewrite Hr; reflexivity).
  split; [|split; [|split; [|split; [|split]]]]; simpl.
  - exists v. rewrite Hid. repeat split; try (rewrite Hr; reflexivity); try assumption.
    apply assoc_dict_set.
  - intros sid Hne. apply assoc_dict_set_ne. congruence.
  - reflexivity.
  - reflexivity.
  - rewrite Hid. apply lookup_insert_eq.
  - intros k Hne. rewrite Hid in Hne. now apply lookup_insert_ne.
Qed.

(** X3: [get_roles] offers exactly the roles [start_session] accepts: a role
    id is listed if and only if every request for it whose email holds an at
    sign is answered with a session.  The list has no role twice and at most
    the four registered ones. *)
Theorem listed_roles_are_startable role :
  (In role (map RoleInfo.id get_roles)
   ↔ ∀ req timestamp started st,
       SessionRequest.role req = role →
       str_contains "@" (SessionRequest.user_email req) = true →
       ∃ resp st', start_session req timestamp started st = (inr resp, st'))
  ∧ List.NoDup (map RoleInfo.id get_roles)
  ∧ (length get_roles ≤ 4)%nat.
Proof.
  split; [|split].
  - rewrite listed_configured. split.
    + intros (v & Hv & Hc) req t started st <- He.
      pose proof (start_session_cases req t started st) as H.
      rewrite Hv, Hc, He in H. destruct H as (a & resp & st' & _ & Hs & _). eauto.
    + intros H.
      set (req := SessionRequest.mk role "x" "x@x").
      destruct (H req 0 EmptyString initial_state eq_refl eq_refl)
        as (resp & st' & Hs).
      pose proof (start_session_cases req 0 EmptyString initial_state) as Hc.
      change (SessionRequest.role req) with role in Hc.
      destruct (assoc role ROLES) as [v|]; [|congruence].
      destruct (configured v) eqn:E; [eauto | congruence].
  - rewrite get_roles_ids. apply filter_keys_NoDup, ROLES_NoDup.
  - unfold get_roles. rewrite length_map.
    etransitivity; [apply filter_length_le|]. reflexivity.
Qed.

End Lifecycle.

(** ** Correlating a call with its session *)

Section Correlation.
Context `{RT : Runtime}.

Lemma call_key_message payload k :
  call_key_of payload = Ok k →
  ∃ message, get_default payload "message" (JObj []) = Ok message.
Proof. unfold call_key_of. intros H. bind_inv_as H message Hm. eauto. Qed.

Lemma assistant_request_known insert payload st event ka kc sid :
  event_type payload = Ok event →
  event_is event "assistant-request" = true →
  assistant_key_of payload = Ok ka →
  call_key_of payload = Ok kc →
  assistant_to_session st !! ka = Some sid →
  sid ≠ EmptyString →
  vapi_webhook insert (Some payload) st
  = (StatusOk,
     mkState (sessions st) (<[kc := sid]> (call_to_session st))
             (assistant_to_session st) (evaluations st)).
Proof.
  intros He Hev Hka Hkc Ha Hne.
  destruct (dispatch_event insert payload st event He) as (message & Hm & Hd).
  unfold vapi_webhook. rewrite Hd, Hev. clear Hd.
  unfold assistant_key_of in Hka. rewrite Hm in Hka. simpl in Hka.
  bind_inv_as Hka a Hg. bind_inv_as Hka assistant_id Ho.
  unfold call_key_of in Hkc. rewrite Hm in Hkc. simpl in Hkc.
  bind_inv_as Hkc call Hc. bind_inv_as Hkc call_id Hi.
  unfold assistant_request.
  rewrite Hc. simpl. rewrite Hi. simpl. rewrite Hg. simpl. rewrite Ho. simpl.
  rewrite Hka. simpl. rewrite Ha.
  apply String.eqb_neq in Hne. rewrite Hne. rewrite Hkc. reflexivity.
Qed.

Lemma linked_report payload st k sid session :
  call_key_of payload = Ok k →
  call_to_session st !! k = Some sid →
  sid ≠ EmptyString →
  assoc sid (sessions st) = Some session →
  resolve_session_id st k = Some sid
  ∧ report_of payload st ≠ Ok NotFound
  ∧ ∀ sid' k' row,
      report_of payload st = Ok (Ready sid' k' row) →
      sid' = sid ∧ k' = k
      ∧ DbData.session_id row = sid
      ∧ DbData.user_email row = Session.user_email session
      ∧ DbData.candidate_name row = Session.candidate session
      ∧ DbData.role row = Session.role_title session.
Proof.
  intros Hk Hlink Hne Hs.
  assert (Hres : resolve_session_id st k = Some sid).
  { unfold resolve_session_id. rewrite Hlink.
    apply String.eqb_neq in Hne. now rewrite Hne. }
  destruct (call_key_message _ _ Hk) as (message & Hm).
  rewrite (report_of_message _ _ _ Hm).
  split; [exact Hres|]. split.
  - intros Hp.
    apply prepare_report_NotFound in Hp as (cd & ci & k' & Hc & Hi & Hk' & Hp).
    rewrite (call_key_of_message _ _ _ _ Hm Hc Hi), Hk' in Hk.
    injection Hk as ->. destruct (Hp sid Hres); congruence.
  - intros sid' k' row Hp.
    pose proof (prepare_report_key _ _ _ _ _ _ Hm Hp) as Hk'.
    rewrite Hk in Hk'. injection Hk' as <-.
    apply prepare_report_Ready in Hp
      as (cd & ci & session' & tr & stc & a & b
          & _ & _ & _ & Hres' & _ & Hs' & _ & _ & _ & _ & Hb).
    rewrite Hres in Hres'. injection Hres' as <-.
    rewrite Hs in Hs'. injection Hs' as <-.
    apply build_db_data_inv in Hb as (? & ? & ? & ? & _). auto 10.
Qed.

(** X4: the round trip of the correlation.  After a successful
    [start_session], an assistant request that names the assistant returned
    to the caller is acknowledged and links its call to the new session,
    changing nothing else; from then on line 259 resolves that call to this
    session, and a report for the call is built from the data of the
    request that started it. *)
Theorem started_session_is_linked_to_its_call
    req timestamp started st0 resp st1 insert payload event kc :
  start_session req timestamp started st0 = (inr resp, st1) →
  event_type payload = Ok event →
  event_is event "assistant-request" = true →
  assistant_key_of payload = Ok (KStr (assistantId resp)) →
  call_key_of payload = Ok kc →
  ∃ st2,
    vapi_webhook insert (Some payload) st1 = (StatusOk, st2)
    ∧ call_to_session st2 !! kc = Some (sessionId resp)
    ∧ (∀ k, k ≠ kc → call_to_session st2 !! k = call_to_session st1 !! k)
    ∧ sessions st2 = sessions st1
    ∧ assistant_to_session st2 = assistant_to_session st1
    ∧ evaluations st2 = evaluations st1
    ∧ resolve_session_id st2 kc = Some (sessionId resp)
    ∧ ∀ report sid k row,
        call_key_of report = Ok kc →
        report_of report st2 = Ok (Ready sid k row) →
        sid = sessionId resp
        ∧ DbData.session_id row = sessionId resp
        ∧ DbData.user_email row = SessionRequest.user_email req
        ∧ DbData.candidate_name row = SessionRequest.candidate_name req.
Proof.
  intros Hs He Hev Hka Hkc.
  pose proof (start_session_ok _ _ _ _ _ _ Hs) as Hid.
  pose proof (start_session_cases req timestamp started st0) as H.
  destruct (assoc (SessionRequest.role req) ROLES) as [v|]; [|congruence].
  destruct (configured v); [|congruence].
  destruct (str_contains "@" _); [|congruence].
  destruct H as (a & resp0 & st0' & Ha & Hs0 & Hr & Hst).
  rewrite Hs in Hs0. injection Hs0 as <- <-.
  assert (Hassistant : assistantId resp = a) by (rewrite Hr; reflexivity).
  assert (Hlink : assistant_to_session st1 !! KStr (assistantId resp)
                  = Some (sessionId resp)).
  { rewrite Hst, Hassistant. simpl. apply lookup_insert_eq. }
  assert (Hne : sessionId resp ≠ EmptyString).
  { rewrite Hid. apply make_session_id_nonempty. }
  eexists. split.
  { exact (assistant_request_known insert payload st1 event _ kc _
             He Hev Hka Hkc Hlink Hne). }
  simpl. split; [apply lookup_insert_eq|].
  split; [intros k Hk; now apply lookup_insert_ne|].
  do 3 (split; [reflexivity|]).
  set (st2 := mkState (sessions st1) (<[kc := sessionId resp]> (call_to_session st1))
                (assistant_to_session st1) (evaluations st1)).
  assert (Hsess : assoc (sessionId resp) (sessions st2)
                  = Some (Session.mk (sessionId resp) (SessionRequest.role req)
                            (Role.title v) (SessionRequest.candidate_name req)
                            (Role.criteria v) a (SessionRequest.user_email req) started)).
  { subst st2. simpl. rewrite Hst. simpl. apply assoc_dict_set. }
  assert (Hl2 : call_to_session st2 !! kc = Some (sessionId resp))
    by apply lookup_insert_eq.
  split.
  - unfold resolve_session_id. rewrite Hl2.
    apply String.eqb_neq in Hne. now rewrite Hne.
  - intros report sid k row Hk Hp.
    destruct (linked_report report st2 kc _ _ Hk Hl2 Hne Hsess) as (_ & _ & Hrow).
    destruct (Hrow sid k row Hp) as (-> & _ & ? & ? & ? & _). auto.
Qed.

(** X5: a call whose identifier is linked to an open session is resolved to
    that session, not to the most recent one: in every reachable state the
    report is never answered with session not found and the row is built from
    the linked session, whatever sessions were started since. *)
Theorem linked_call_resolves_to_its_session payload st k sid session :
  reachable st →
  call_key_of payload = Ok k →
  call_to_session st !! k = Some sid →
  assoc sid (sessions st) = Some session →
  resolve_session_id st k = Some sid
  ∧ report_of payload st ≠ Ok NotFound
  ∧ ∀ sid' k' row,
      report_of payload st = Ok (Ready sid' k' row) →
      sid' = sid ∧ k' = k
      ∧ DbData.session_id row = sid
      ∧ DbData.user_email row = Session.user_email session
      ∧ DbData.candidate_name row = Session.candidate session
      ∧ DbData.role row = Session.role_title session.
Proof.
  intros Hreach Hk Hlink Hs.
  destruct (reachable_nonempty st Hreach) as (_ & Hc & _).
  exact (linked_report payload st k sid session Hk Hlink (Hc k sid Hlink) Hs).
Qed.

(** X6: an assistant request for an assistant that no session is waiting on
    is acknowledged with ok and changes nothing; the call identifier is not
    even hashed, so this also holds for one that could not be a key. *)
Theorem unknown_assistant_is_ignored insert payload st event ka call_id :
  event_type payload = Ok event →
  event_is event "assistant-request" = true →
  assistant_key_of payload = Ok ka →
  call_id_of payload = Ok call_id →
  assistant_to_session st !! ka = None →
  vapi_webhook insert (Some payload) st = (StatusOk, st).
Proof.
  intros He Hev Hka Hci Ha.
  destruct (dispatch_event insert payload st event He) as (message & Hm & Hd).
  unfold vapi_webhook. rewrite Hd, Hev. clear Hd.
  unfold assistant_key_of in Hka. rewrite Hm in Hka. simpl in Hka.
  bind_inv_as Hka a Hg. bind_inv_as Hka assistant_id Ho.
  unfold call_id_of in Hci. rewrite Hm in Hci. simpl in Hci.
  bind_inv_as Hci call Hc.
  unfold assistant_request.
  rewrite Hc. simpl. rewrite Hci. simpl. rewrite Hg. simpl. rewrite Ho. simpl.
  rewrite Hka. simpl. rewrite Ha. reflexivity.
Qed.

(** X7: the assistant link is last-writer-wins.  When two sessions are
    started one after the other for the same role, both are given the same
    assistant, the link of that assistant points to the second session, and
    an assistant request for it links the call to the second session; the
    first session, if its identifier differs, stays open but its assistant
    no longer leads to it. *)
Theorem second_session_takes_the_assistant
    req1 t1 s1 st resp1 st1 req2 t2 s2 resp2 st2 :
  start_session req1 t1 s1 st = (inr resp1, st1) →
  start_session req2 t2 s2 st1 = (inr resp2, st2) →
  SessionRequest.role req1 = SessionRequest.role req2 →
  assistantId resp1 = assistantId resp2
  ∧ assistant_to_session st2 !! KStr (assistantId resp1) = Some (sessionId resp2)
  ∧ (t1 ≠ t2 →
     sessionId resp1 ≠ sessionId resp2
     ∧ is_Some (assoc (sessionId resp1) (sessions st2))
     ∧ assistant_to_session st2 !! KStr (assistantId resp1) ≠ Some (sessionId resp1))
  ∧ ∀ insert payload event kc,
      event_type payload = Ok event →
      event_is event "assistant-request" = true →
      assistant_key_of payload = Ok (KStr (assistantId resp1)) →
      call_key_of payload = Ok kc →
      call_to_session (snd (vapi_webhook insert (Some payload) st2)) !! kc
      = Some (sessionId resp2).
Proof.
  intros Hs1 Hs2 Hrole.
  pose proof (start_session_ok _ _ _ _ _ _ Hs1) as Hid1.
  pose proof (start_session_ok _ _ _ _ _ _ Hs2) as Hid2.
  pose proof (start_session_cases req1 t1 s1 st) as H1.
  pose proof (start_session_cases req2 t2 s2 st1) as H2.
  rewrite <- Hrole in H2.
  destruct (assoc (SessionRequest.role req1) ROLES) as [v|]; [|congruence].
  destruct (configured v); [|congruence].
  destruct (str_contains "@" (SessionRequest.user_email req1)); [|congruence].
  destruct (str_contains "@" (SessionRequest.user_email req2)); [|congruence].
  destruct H1 as (a1 & r1 & st1' & Ha1 & Hs1' & Hr1 & Hst1).
  destruct H2 as (a2 & r2 & st2' & Ha2 & Hs2' & Hr2 & Hst2).
  rewrite Hs1 in Hs1'. injection Hs1' as <- <-.
  rewrite Hs2 in Hs2'. injection Hs2' as <- <-.
  assert (a2 = a1) as -> by congruence.
  assert (Hx1 : assistantId resp1 = a1) by (rewrite Hr1; reflexivity).
  assert (Hx2 : assistantId resp2 = a1) by (rewrite Hr2; reflexivity).
  assert (Hlink : assistant_to_session st2 !! KStr (assistantId resp1)
                  = Some (sessionId resp2)).
  { rewrite Hst2, Hx1. simpl. apply lookup_insert_eq. }
  split; [congruence|]. split; [exact Hlink|]. split.
  - intros Hne.
    assert (Hdiff : sessionId resp1 ≠ sessionId resp2).
    { rewrite Hid1, Hid2. intros E. apply make_session_id_inj in E as [_ E]. auto. }
    split; [exact Hdiff|]. split.
    + rewrite Hst2. simpl. rewrite assoc_dict_set_ne by auto.
      rewrite Hst1. simpl. rewrite assoc_dict_set. eauto.
    + rewrite Hlink. congruence.
  - intros insert payload event kc He Hev Hka Hkc.
    assert (Hne : sessionId resp2 ≠ EmptyString).
    { rewrite Hid2. apply make_session_id_nonempty. }
    rewrite (assistant_request_known insert payload st2 event _ kc _
               He Hev Hka Hkc Hlink Hne).
    simpl. apply lookup_insert_eq.
Qed.

End Correlation.

(** ** What a delivery writes *)

Section Deliveries.
Context `{RT : Runtime}.

Lemma assoc_dict_pop_Some {V : Type} k k' (v : V) d :
  assoc k' (dict_pop k d) = Some v → assoc k' d = Some v.
Proof.
  destruct (decide (k = k')) as [->|Hne].
  - rewrite assoc_dict_pop. discriminate.
  - now rewrite assoc_dict_pop_ne.
Qed.

Lemma app_singleton_ne {A : Type} (l : list A) x : l ≠ l ++ [x].
Proof.
  intros H. apply (f_equal length) in H. rewrite length_app in H. simpl in H. lia.
Qed.

Lemma duration_min_ge_1 start end_ : 1 ≤ duration_min start end_.
Proof. unfold duration_min. destruct (truthy start && truthy end_); lia. Qed.

Lemma webhook_error_keeps_state insert body st :
  fst (vapi_webhook insert body st) ≠ StatusOk →
  snd (vapi_webhook insert body st) = st.
Proof.
  intros H.
  destruct (vapi_webhook_effect insert body st)
    as [Hsame | [(ka & kc & sid & _ & _ & Heq)
              | (payload & event & sid & k & row & _ & _ & _ & _ & _ & Heq)]];
    [exact Hsame | |]; rewrite Heq in H; now destruct H.
Qed.

(** X8: one delivery inserts at most one row.  Either the table and
    [sessions] are as before, or exactly one row went in: the insert had
    returned, the answer is ok, the row carries the identifier, email,
    candidate and role title of a session that was open on entry, that
    session is closed on exit and every other session is untouched. *)
Theorem delivery_commits_at_most_one_row insert body st :
  (evaluations (snd (vapi_webhook insert body st)) = evaluations st
   ∧ sessions (snd (vapi_webhook insert body st)) = sessions st)
  ∨ ∃ row session,
      evaluations (snd (vapi_webhook insert body st)) = evaluations st ++ [row]
      ∧ insert row = None
      ∧ fst (vapi_webhook insert body st) = StatusOk
      ∧ assoc (DbData.session_id row) (sessions st) = Some session
      ∧ DbData.user_email row = Session.user_email session
      ∧ DbData.candidate_name row = Session.candidate session
      ∧ DbData.role row = Session.role_title session
      ∧ assoc (DbData.session_id row) (sessions (snd (vapi_webhook insert body st))) = None
      ∧ ∀ sid, sid ≠ DbData.session_id row →
          assoc sid (sessions (snd (vapi_webhook insert body st)))
          = assoc sid (sessions st).
Proof.
  destruct (vapi_webhook_effect insert body st)
    as [Hsame | [(ka & kc & sid & _ & _ & Heq)
              | (payload & event & sid & k & row & -> & _ & _ & Hp & Hi & Heq)]].
  - left. now rewrite Hsame.
  - left. rewrite Heq. auto.
  - right. rewrite Heq. simpl.
    unfold report_of in Hp. bind_inv_as Hp message Hm.
    apply prepare_report_Ready in Hp
      as (cd & ci & session & tr & stc & a & b
          & _ & _ & _ & _ & _ & Hs & _ & _ & _ & _ & Hb).
    apply build_db_data_inv in Hb as (Hsid & He & Hc & Hr & _).
    exists row, session. rewrite Hsid.
    repeat (split; [first [reflexivity | assumption]|]).
    split; [apply assoc_dict_pop|].
    intros sid' Hne. apply assoc_dict_pop_ne. congruence.
Qed.

(** X9: a report is not committed twice.  Once the row of a session is in,
    no delivery received in the resulting state, the same payload again or
    any other, inserts a row for that session; and if no other session is
    open, the same payload is then answered with session not found. *)
Theorem committed_report_is_not_repeated insert payload st event sid k row :
  event_type payload = Ok event →
  event_is event "end-of-call-report" = true →
  report_of payload st = Ok (Ready sid k row) →
  insert row = None →
  (∀ insert' body' row',
      evaluations (snd (vapi_webhook insert' body'
                          (snd (vapi_webhook insert (Some payload) st))))
      = evaluations (snd (vapi_webhook insert (Some payload) st)) ++ [row'] →
      DbData.session_id row' ≠ sid)
  ∧ (sessions (snd (vapi_webhook insert (Some payload) st)) = [] →
     ∀ insert',
       vapi_webhook insert' (Some payload) (snd (vapi_webhook insert (Some payload) st))
       = (StatusError (Text "session not found"),
          snd (vapi_webhook insert (Some payload) st))).
Proof.
  intros He Hev Hp Hi.
  destruct (dispatch_report insert payload st event He Hev) as (message & Hm & Hd).
  rewrite (report_of_message _ _ _ Hm) in Hp.
  assert (Hw : vapi_webhook insert (Some payload) st
               = (StatusOk,
                  mkState (dict_pop sid (sessions st)) (delete k (call_to_session st))
                          (assistant_to_session st) (evaluations st ++ [row]))).
  { unfold vapi_webhook. rewrite Hd. unfold end_of_call_report.
    rewrite Hp. simpl. now rewrite Hi. }
  rewrite Hw. simpl.
  set (st' := mkState (dict_pop sid (sessions st)) (delete k (call_to_session st))
                (assistant_to_session st) (evaluations st ++ [row])).
  split.
  - intros insert' body' row' Hrows.
    destruct (vapi_webhook_effect insert' body' st')
      as [Hsame | [(ka & kc & sid' & _ & _ & Heq)
                | (payload' & event' & sid' & k' & row0 & -> & _ & _ & Hp' & _ & Heq)]].
    + rewrite Hsame in Hrows. now apply app_singleton_ne in Hrows.
    + rewrite Heq in Hrows. simpl in Hrows. now apply app_singleton_ne in Hrows.
    + rewrite Heq in Hrows. simpl in Hrows.
      apply app_inv_head in Hrows. injection Hrows as <-.
      unfold report_of in Hp'. bind_inv_as Hp' message' Hm'.
      apply prepare_report_Ready in Hp'
        as (cd & ci & session & tr & stc & a & b
            & _ & _ & _ & _ & _ & Hs & _ & _ & _ & _ & Hb).
      apply build_db_data_inv in Hb as (Hsid & _). rewrite Hsid.
      intros ->. simpl in Hs. rewrite assoc_dict_pop in Hs. discriminate.
  - intros Hempty insert'.
    pose proof (prepare_report_key _ _ _ _ _ _ Hm Hp) as Hk.
    destruct (dispatch_report insert' payload st' event He Hev) as (message' & Hm' & Hd').
    unfold vapi_webhook. rewrite Hd'. unfold end_of_call_report.
    rewrite (prepare_report_not_found payload message' st' k Hm' Hk); [reflexivity|].
    intros sid'. unfold resolve_session_id. simpl in *.
    rewrite lookup_delete_eq, Hempty. discriminate.
Qed.

(** X10: what a report lacks is replaced by a default.  In the row built for
    a report, a score whose key is not in the scores object is 0, the overall
    score is 0.0, a text whose key is not there is the string N/A, and a
    message without transcript gives the placeholder text. *)
Theorem missing_fields_take_defaults payload st sid k row message structured :
  get_default payload "message" (JObj []) = Ok message →
  extract_structured message = Ok structured →
  report_of payload st = Ok (Ready sid k row) →
  (∀ key field, (key, field) ∈ score_fields →
     lookup_path structured [key] = None → field row = 0)
  ∧ (∀ key field, (key, field) ∈ text_fields →
       lookup_path structured [key] = None → field row = "N/A"%string)
  ∧ (lookup_path structured ["overall"%string] = None →
     DbData.overall_score row = S754_zero false)
  ∧ (lookup_path message ["transcript"%string] = None →
     DbData.transcript row = JStr "No transcript available").
Proof.
  intros Hm Hx Hp. rewrite (report_of_message _ _ _ Hm) in Hp.
  apply prepare_report_Ready in Hp
    as (cd & ci & session & tr & stc & a & b
        & Hcall & _ & _ & _ & _ & _ & Ht & Hx' & _ & _ & Hb).
  rewrite Hx in Hx'. injection Hx' as <-.
  apply build_db_data_inv in Hb
    as (_ & _ & _ & _ & _ & Hov & Hslice & Hrec & H1 & H2 & H3 & H4 & H5
        & S1 & S2 & S3 & S4 & S5).
  assert (Habsent : ∀ key d, lookup_path structured [key] = None →
            (∃ items, structured = JObj items) →
            get_default structured key d = Ok d).
  { intros key d Hl (items & ->). simpl in *.
    destruct (assoc key items); [discriminate | reflexivity]. }
  assert (Hobj : ∃ items, structured = JObj items).
  { unfold float_field in Hov. bind_inv_as Hov v Hv.
    destruct structured; try discriminate. eauto. }
  split; [|split; [|split]].
  - assert (Hscore : ∀ key z, int_field structured key = Ok z →
              lookup_path structured [key] = None → z = 0).
    { intros key z Hz Hl. unfold int_field in Hz.
      rewrite (Habsent _ _ Hl Hobj) in Hz. simpl in Hz. congruence. }
    intros key field Hin. unfold score_fields in Hin.
    repeat (apply elem_of_cons in Hin as [[= -> ->]|Hin]; [now apply Hscore|]).
    inversion Hin.
  - assert (Htext : ∀ key s0, text_field structured key = Ok s0 →
              lookup_path structured [key] = None → s0 = "N/A"%string).
    { intros key s0 Hz Hl. unfold text_field in Hz.
      rewrite (Habsent _ _ Hl Hobj) in Hz. vm_compute in Hz. congruence. }
    intros key field Hin. unfold text_fields in Hin.
    repeat (apply elem_of_cons in Hin as [[= -> ->]|Hin]; [now apply Htext|]).
    inversion Hin.
  - intros Hl. unfold float_field in Hov.
    rewrite (Habsent _ _ Hl Hobj) in Hov. simpl in Hov.
    assert (E0 : float_of_int 0 = Ok (S754_zero false)) by reflexivity.
    congruence.
  - intros Hl.
    assert (tr = JStr "No transcript available") as ->.
    { destruct message; try discriminate. simpl in *.
      destruct (assoc "transcript" items); [discriminate | congruence]. }
    simpl in Hslice. congruence.
Qed.

(** X11: a score that [int] cannot convert aborts the whole report: when
    the value under one of the score keys makes [int] raise, as [null], a
    list or an object do, the delivery is not answered with ok, nothing is
    inserted and the state, the open session included, is as before. *)
Theorem unconvertible_score_aborts
    insert payload st event message structured key field v e :
  event_type payload = Ok event →
  event_is event "end-of-call-report" = true →
  get_default payload "message" (JObj []) = Ok message →
  extract_structured message = Ok structured →
  (key, field) ∈ score_fields →
  get_default structured key (JInt 0) = Ok v →
  py_int v = Raise e →
  fst (vapi_webhook insert (Some payload) st) ≠ StatusOk
  ∧ snd (vapi_webhook insert (Some payload) st) = st.
Proof.
  intros He Hev Hm Hx Hin Hv Hint.
  assert (Hno : fst (vapi_webhook insert (Some payload) st) ≠ StatusOk).
  { destruct (vapi_webhook insert (Some payload) st) as [resp st'] eqn:Hw. simpl.
    intros ->.
    destruct (report_committed insert payload st st' event He Hev Hw)
      as (message' & sid & k & row & Hm' & Hp & _ & _).
    rewrite Hm in Hm'. injection Hm' as <-.
    apply prepare_report_Ready in Hp
      as (cd & ci & session & tr & stc & a & b
          & _ & _ & _ & _ & _ & _ & _ & Hx' & _ & _ & Hb).
    rewrite Hx in Hx'. injection Hx' as <-.
    apply build_db_data_inv in Hb
      as (_ & _ & _ & _ & _ & _ & _ & _ & _ & _ & _ & _ & _
          & S1 & S2 & S3 & S4 & S5).
    assert (Hscore : ∀ z, int_field structured key = Ok z → False).
    { intros z Hz. unfold int_field in Hz. rewrite Hv in Hz. simpl in Hz. congruence. }
    unfold score_fields in Hin.
    repeat (apply elem_of_cons in Hin as [[= -> ->]|Hin]; [eauto|]).
    inversion Hin. }
  split; [exact Hno | now apply webhook_error_keeps_state].
Qed.

(** X12: [iso_to_ms] reads a trailing [Z] as the offset [+00:00]: the two
    spellings of a timestamp give the same milliseconds, and a string that
    has no [Z] reaches the parser unchanged. *)
Theorem zulu_suffix_is_utc_offset s :
  iso_to_ms (JStr (String.append s "Z")) = iso_to_ms (JStr (String.append s "+00:00"))
  ∧ (str_contains "Z" s = false → replace_Z s = s).
Proof.
  split.
  - unfold iso_to_ms.
    assert (H : ∀ t, replace_Z t = t →
              replace_Z (String.append s t) = String.append (replace_Z s) t).
    { intros t Ht. induction s as [|c s IH]; simpl; [exact Ht|].
      destruct (Ascii.eqb c "Z"); simpl; now rewrite IH. }
    rewrite (H "+00:00"%string eq_refl).
    assert (HZ : replace_Z (String.append s "Z")
                 = String.append (replace_Z s) "+00:00").
    { clear H. induction s as [|c s IH]; simpl; [reflexivity|].
      destruct (Ascii.eqb c "Z"); simpl; now rewrite IH. }
    now rewrite HZ.
  - induction s as [|c s IH]; cbn [replace_Z str_contains]; [reflexivity|].
    intros H. apply orb_false_iff in H as [H1 H2].
    rewrite Ascii.eqb_sym in H1. rewrite H1. now rewrite IH.
Qed.

End Deliveries.

(** ** Invariants of the server *)

Arguments ROLES {RT} : simpl never.

Section Invariants.
Context `{RT : Runtime}.

Lemma start_session_state_ok req timestamp started st :
  SessionRequest.valid req = true →
  state_ok st →
  state_ok (snd (start_session req timestamp started st)).
Proof.
  intros Hvalid Hok. pose proof Hok as (Hs & Hc & Ha & Hr).
  pose proof (start_session_cases req timestamp started st) as H.
  destruct (assoc (SessionRequest.role req) ROLES) as [v|] eqn:Hrole;
    [|rewrite H; exact Hok].
  destruct (configured v) eqn:Hconf; [|rewrite H; exact Hok].
  destruct (str_contains "@" (SessionRequest.user_email req)) eqn:Hemail;
    [|rewrite H; exact Hok].
  destruct H as (a & resp & st' & Hassistant & -> & -> & ->). simpl.
  assert (Hissued : issued (make_session_id (SessionRequest.role req) timestamp)).
  { exists (SessionRequest.role req), timestamp. rewrite Hrole. eauto. }
  assert (Hne : a ≠ EmptyString).
  { unfold configured in Hconf. rewrite Hassistant in Hconf.
    apply negb_true_iff in Hconf. now apply String.eqb_neq. }
  split; [|split; [|split]]; simpl.
  - intros sid s.
    destruct (decide (make_session_id (SessionRequest.role req) timestamp = sid))
      as [<-|Hdiff].
    + rewrite assoc_dict_set. intros [= <-]. unfold session_ok. simpl.
      split; [reflexivity|]. split; [exists timestamp; reflexivity|].
      split; [exists v; repeat split; assumption|].
      split; [exact Hne|]. split; [exact Hemail|].
      unfold SessionRequest.valid in Hvalid.
      apply andb_true_iff in Hvalid as [H1 H2].
      apply Nat.leb_le in H1, H2. lia.
    + rewrite assoc_dict_set_ne by exact Hdiff. apply Hs.
  - exact Hc.
  - intros k sid. rewrite lookup_insert. case_decide as Hk.
    + intros [= <-]. split; [exact Hissued|]. subst k.
      exists (SessionRequest.role req), v, a. auto.
    + apply Ha.
  - exact Hr.
Qed.

Lemma prepared_row_ok message st sid k row :
  state_ok st →
  prepare_report message st = Ok (Ready sid k row) →
  row_ok row.
Proof.
  intros (Hs & _) Hp.
  apply prepare_report_Ready in Hp
    as (cd & ci & session & tr & stc & a & b
        & _ & _ & _ & _ & _ & Hsess & _ & _ & _ & _ & Hb).
  destruct (Hs _ _ Hsess) as (_ & (t & Ht) & (v & Hv & Htitle & _) & _ & Hemail & Hlen).
  apply build_db_data_inv in Hb
    as (Hsid & He & Hc & Hr & Hd & _ & _ & Hrec & H1 & H2 & H3 & H4 & H5 & _).
  unfold row_ok. rewrite Hsid, He, Hc, Hr, Hd.
  split; [exists (Session.role session), t; rewrite Hv; eauto|].
  split; [exact Hemail|]. split; [exact Hlen|].
  split; [eauto|]. split; [apply duration_min_ge_1|].
  assert (Hfield : ∀ key s0, text_field stc key = Ok s0 → (String.length s0 ≤ 500)%nat).
  { intros key s0 Hz. apply text_field_inv in Hz as (v0 & _ & ->).
    rewrite str_take_length. lia. }
  intros key field Hin. unfold text_fields in Hin.
  repeat (apply elem_of_cons in Hin as [[= -> ->]|Hin]; [eauto|]).
  inversion Hin.
Qed.

Lemma vapi_webhook_state_ok insert body st :
  state_ok st → state_ok (snd (vapi_webhook insert body st)).
Proof.
  intros Hok. pose proof Hok as (Hs & Hc & Ha & Hr).
  destruct (vapi_webhook_effect insert body st)
    as [-> | [(ka & kc & sid & Hka & _ & ->)
            | (payload & event & sid & k & row & _ & _ & _ & Hp & _ & ->)]];
    [exact Hok | |]; simpl; (split; [|split; [|split]]); simpl; auto.
  - intros k sid'. rewrite lookup_insert. case_decide.
    + intros [= <-]. now destruct (Ha _ _ Hka).
    + apply Hc.
  - intros sid' s Hsome. apply Hs. eapply assoc_dict_pop_Some, Hsome.
  - intros k' sid'. rewrite lookup_delete. case_decide; [discriminate | apply Hc].
  - intros row' Hin. apply elem_of_app in Hin as [Hin|Hin]; [auto|].
    apply list_elem_of_singleton in Hin as ->.
    unfold report_of in Hp. bind_inv_as Hp message Hm.
    eapply prepared_row_ok; eassumption.
Qed.

Lemma handle_state_ok r st : state_ok st → state_ok (handle r st).
Proof.
  destruct r as [req t started | insert body]; simpl.
  - destruct (SessionRequest.valid req) eqn:Hv; [|auto].
    now apply start_session_state_ok.
  - apply vapi_webhook_state_ok.
Qed.

(** X13: in every state the server can reach, every open session is stored
    under its own identifier, belongs to a registered role whose title,
    criteria and configured assistant it carries, has an email with an at
    sign and a candidate name of 1 to 100 characters; every link leads to an
    identifier that [start_session] issued, the assistant links only from
    configured assistants; and every row in the table has an issued
    identifier, such an email and name, the title of a registered role, a
    duration of at least one minute and text columns of at most 500
    characters. *)
Theorem reachable_state_ok st : reachable st → state_ok st.
Proof.
  induction 1 as [|st r _ IH].
  - split; [|split; [|split]]; simpl.
    + discriminate.
    + intros k sid. rewrite lookup_empty. discriminate.
    + intros k sid. rewrite lookup_empty. discriminate.
    + intros row H. inversion H.
  - now apply handle_state_ok.
Qed.

Lemma handle_appends r st :
  ∃ rows, evaluations (handle r st) = evaluations st ++ rows ∧ (length rows ≤ 1)%nat.
Proof.
  destruct r as [req t started | insert body]; simpl.
  - exists []. rewrite app_nil_r. split; [|simpl; lia].
    destruct (SessionRequest.valid req); [|reflexivity].
    pose proof (start_session_cases req t started st) as H.
    destruct (assoc (SessionRequest.role req) ROLES) as [v|]; [|now rewrite H].
    destruct (configured v); [|now rewrite H].
    destruct (str_contains "@" _); [|now rewrite H].
    destruct H as (a & resp & st' & _ & -> & _ & ->). reflexivity.
  - destruct (vapi_webhook_effect insert body st)
      as [-> | [(ka & kc & sid & _ & _ & ->)
              | (payload & event & sid & k & row & _ & _ & _ & _ & _ & ->)]]; simpl.
    + exists []. rewrite app_nil_r. split; [reflexivity | simpl; lia].
    + exists []. rewrite app_nil_r. split; [reflexivity | simpl; lia].
    + exists [row]. split; [reflexivity | simpl; lia].
Qed.

(** X14: the table only grows.  Over any sequence of requests the rows that
    were in the table stay, in their order, new rows are added after them,
    and there are at most as many new rows as requests. *)
Theorem table_is_append_only rs st :
  ∃ rows,
    evaluations (run rs st) = evaluations st ++ rows
    ∧ (length rows ≤ length rs)%nat.
Proof.
  revert st. induction rs as [|r rs IH]; intros st; simpl.
  - exists []. rewrite app_nil_r. split; [reflexivity | simpl; lia].
  - destruct (IH (handle r st)) as (rows2 & -> & Hlen2).
    destruct (handle_appends r st) as (rows1 & -> & Hlen1).
    exists (rows1 ++ rows2). rewrite app_assoc. split; [reflexivity|].
    rewrite length_app. lia.
Qed.

(** X15: what the webhook writes is what the read endpoints ask for.  For a
    session started by a request, as long as it is stored as it was started,
    the row of its report carries in [user_email], [role] and [session_id]
    exactly the values on which [get_user_evaluations] for the email of the
    request, [get_user_evaluations_by_role] for its email and role id, and
    [get_evaluation] for the returned identifier filter. *)
Theorem committed_row_matches_read_filters
    req timestamp started st0 resp st1 st payload k row :
  start_session req timestamp started st0 = (inr resp, st1) →
  assoc (sessionId resp) (sessions st) = assoc (sessionId resp) (sessions st1) →
  report_of payload st = Ok (Ready (sessionId resp) k row) →
  Query.eq_filters (user_evaluations_query (SessionRequest.user_email req))
  = [("user_email"%string, DbData.user_email row)]
  ∧ Query.eq_filters
      (role_evaluations_query (SessionRequest.user_email req) (SessionRequest.role req))
    = [("user_email"%string, DbData.user_email row); ("role"%string, DbData.role row)]
  ∧ Query.eq_filters (evaluation_query (sessionId resp))
    = [("session_id"%string, DbData.session_id row)].
Proof.
  intros Hs Hsame Hp.
  pose proof (start_session_cases req timestamp started st0) as H.
  unfold role_evaluations_query, role_title_of.
  destruct (assoc (SessionRequest.role req) ROLES) as [v|]; [|congruence].
  destruct (configured v); [|congruence].
  destruct (str_contains "@" _); [|congruence].
  destruct H as (a & resp0 & st' & _ & Hs0 & Hr & Hst).
  rewrite Hs in Hs0. injection Hs0 as <- <-.
  rewrite Hst in Hsame. simpl in Hsame. rewrite assoc_dict_set in Hsame.
  unfold report_of in Hp. bind_inv_as Hp message Hm.
  apply prepare_report_Ready in Hp
    as (cd & ci & session & tr & stc & x & y
        & _ & _ & _ & _ & _ & Hsess & _ & _ & _ & _ & Hb).
  rewrite Hsame in Hsess. injection Hsess as <-.
  apply build_db_data_inv in Hb as (-> & -> & _ & -> & _).
  simpl. auto.
Qed.

(** X16: [get_user_evaluations_by_role] may be asked by role id or by role
    title: the title of a registered role is not itself a role id, so the
    title that line 374 looks up is left as it is and both spellings build
    the same query; a string that is neither is used as given. *)
Theorem role_query_by_id_or_title user_email role :
  role_evaluations_query user_email (role_title_of role)
  = role_evaluations_query user_email role
  ∧ (assoc role ROLES = None →
     Query.eq_filters (role_evaluations_query user_email role)
     = [("user_email"%string, user_email); ("role"%string, role)]).
Proof.
  split.
  - unfold role_evaluations_query. do 3 f_equal.
    unfold role_title_of.
    destruct (assoc role ROLES) as [v|] eqn:Hv; [|now rewrite Hv].
    apply assoc_In in Hv. unfold ROLES in Hv. simpl in Hv.
    repeat (destruct Hv as [[= <- <-]|Hv]; [reflexivity|]).
    destruct Hv.
  - intros Hnone. unfold role_evaluations_query, role_title_of.
    now rewrite Hnone.
Qed.

End Invariants.

(** ** Reading stored evaluations *)

Section Reading.
Context `{RT : Runtime}.
Variable Row : Type.
Variable execute : Query.t → string + list Row.

(** X17: the read endpoints pass the answer of the client on.  The two list
    endpoints return exactly the rows the client returned, an empty list
    included, and fail, with 500, only when the client raises.
    [get_evaluation] returns the first row, answers 404 exactly when the
    client returned no row, and 500 exactly when the client raised: the 404
    raised inside the [try] is not turned into a 500. *)
Theorem read_endpoints_outcomes :
  (∀ email data,
      get_user_evaluations Row execute email = inr data
      ↔ execute (user_evaluations_query email) = inr data)
  ∧ (∀ email role data,
       get_user_evaluations_by_role Row execute email role = inr data
       ↔ execute (role_evaluations_query email role) = inr data)
  ∧ (∀ email err,
       get_user_evaluations Row execute email = inl err →
       ∃ e, execute (user_evaluations_query email) = inl e
            ∧ err = HTTPException 500 (String.append "Failed to fetch evaluations: " e))
  ∧ (∀ email role err,
       get_user_evaluations_by_role Row execute email role = inl err →
       ∃ e, execute (role_evaluations_query email role) = inl e
            ∧ err = HTTPException 500 (String.append "Failed to fetch evaluations: " e))
  ∧ (∀ sid r,
       get_evaluation Row execute sid = inr r
       ↔ ∃ rest, execute (evaluation_query sid) = inr (r :: rest))
  ∧ (∀ sid,
       (∃ detail, get_evaluation Row execute sid = inl (HTTPException 404 detail))
       ↔ execute (evaluation_query sid) = inr [])
  ∧ (∀ sid,
       (∃ detail, get_evaluation Row execute sid = inl (HTTPException 500 detail))
       ↔ ∃ e, execute (evaluation_query sid) = inl e).
Proof.
  unfold get_user_evaluations, get_user_evaluations_by_role, get_evaluation.
  split; [|split; [|split; [|split; [|split; [|split]]]]].
  - intros email data. destruct (execute (user_evaluations_query email));
      split; congruence.
  - intros email role data. destruct (execute (role_evaluations_query email role));
      split; congruence.
  - intros email err. destruct (execute (user_evaluations_query email)) as [e|data];
      [|discriminate]. intros [= <-]. eauto.
  - intros email role err.
    destruct (execute (role_evaluations_query email role)) as [e|data];
      [|discriminate]. intros [= <-]. eauto.
  - intros sid r. destruct (execute (evaluation_query sid)) as [e|[|r0 rest]]; split;
      try discriminate; try (intros (rest' & [=])).
    + intros [= ->]. eauto.
    + subst. reflexivity.
  - intros sid. destruct (execute (evaluation_query sid)) as [e|[|r0 rest]]; split;
      try discriminate; try (intros (d & [=])); eauto.
  - intros sid. destruct (execute (evaluation_query sid)) as [e|[|r0 rest]]; split;
      try (intros (d & [=])); eauto.
Qed.

End Reading.

(** ** The further properties at concrete requests *)

Lemma reachable_linked_then_second :
  reachable (RT := reference_runtime) linked_then_second.
Proof. apply reachable_run, reachable_linked_session. Qed.

Lemma start_session_effect_witness :
  assistant_to_session one_session !! KStr "asst-team-lead"
  = Some "session_team_lead_1700000000000"%string
  ∧ call_to_session one_session = call_to_session initial_state
  ∧ evaluations one_session = evaluations initial_state.
Proof.
  edestruct (@start_session_effect reference_runtime) with
    (req := ada) (timestamp := 1700000000000) (started := "2023-11-14T22:13:20"%string)
    (st := initial_state)
    as (_ & _ & H1 & H2 & H3 & _).
  - vm_compute. reflexivity.
  - split; [exact H3|]. split; [exact H1 | exact H2].
Defined.

Lemma started_session_is_linked_to_its_call_witness :
  ∃ st2,
    vapi_webhook (RT := reference_runtime) accepts
      (Some (request_payload "call-1" "asst-team-lead")) one_session = (StatusOk, st2)
    ∧ call_to_session st2 !! KStr "call-1" = Some "session_team_lead_1700000000000"%string
    ∧ resolve_session_id st2 (KStr "call-1")
      = Some "session_team_lead_1700000000000"%string.
Proof.
  edestruct (@started_session_is_linked_to_its_call reference_runtime) with
    (req := ada) (timestamp := 1700000000000) (started := "2023-11-14T22:13:20"%string)
    (st0 := initial_state) (insert := accepts)
    (payload := request_payload "call-1" "asst-team-lead")
    (event := JStr "assistant-request") (kc := KStr "call-1")
    as (st2 & H1 & H2 & _ & _ & _ & _ & H3 & _).
  - vm_compute. reflexivity.
  - reflexivity.
  - reflexivity.
  - reflexivity.
  - reflexivity.
  - exists st2. split; [exact H1|]. split; [exact H2 | exact H3].
Defined.

Lemma linked_call_resolves_to_its_session_witness :
  last_key (sessions linked_then_second)
  = Some "session_sales_manager_1700000005000"%string
  ∧ resolve_session_id linked_then_second (KStr "call-1")
    = Some "session_team_lead_1700000000000"%string.
Proof.
  split; [vm_compute; reflexivity|].
  edestruct (@linked_call_resolves_to_its_session reference_runtime) with
    (payload := report_payload [("id", JStr "call-1")] []) (st := linked_then_second)
    (k := KStr "call-1") (sid := "session_team_lead_1700000000000"%string)
    as (H & _).
  - exact reachable_linked_then_second.
  - reflexivity.
  - vm_compute. reflexivity.
  - vm_compute. reflexivity.
  - exact H.
Defined.

Lemma unknown_assistant_is_ignored_witness :
  vapi_webhook (RT := reference_runtime) accepts
    (Some (request_payload "call-7" "asst-nobody")) one_session
  = (StatusOk, one_session).
Proof.
  apply (unknown_assistant_is_ignored (RT := reference_runtime) accepts
           (request_payload "call-7" "asst-nobody") one_session
           (JStr "assistant-request") (KStr "asst-nobody") (JStr "call-7")).
  - reflexivity.
  - reflexivity.
  - reflexivity.
  - reflexivity.
  - vm_compute. reflexivity.
Defined.

Lemma second_session_takes_the_assistant_witness :
  assistant_to_session
    (snd (start_session (RT := reference_runtime) grace 1700000000001
            "2023-11-14T22:13:20.001" one_session))
  !! KStr "asst-team-lead"
  = Some "session_team_lead_1700000000001"%string.
Proof.
  edestruct (@second_session_takes_the_assistant reference_runtime) with
    (req1 := ada) (t1 := 1700000000000) (s1 := "2023-11-14T22:13:20"%string)
    (st := initial_state)
    (req2 := grace) (t2 := 1700000000001) (s2 := "2023-11-14T22:13:20.001"%string)
    as (_ & H & _).
  - vm_compute. reflexivity.
  - vm_compute. reflexivity.
  - reflexivity.
  - exact H.
Defined.

Lemma committed_report_is_not_repeated_witness :
  vapi_webhook (RT := reference_runtime) accepts (Some both_shapes)
    (snd (vapi_webhook (RT := reference_runtime) accepts (Some both_shapes)
            linked_session))
  = (StatusError (Text "session not found"),
     snd (vapi_webhook (RT := reference_runtime) accepts (Some both_shapes)
            linked_session)).
Proof.
  edestruct (@committed_report_is_not_repeated reference_runtime) with
    (insert := accepts) (payload := both_shapes) (st := linked_session)
    (event := JStr "end-of-call-report")
    as (_ & H).
  - reflexivity.
  - reflexivity.
  - vm_compute. reflexivity.
  - reflexivity.
  - apply H. vm_compute. reflexivity.
Defined.

Lemma missing_fields_take_defaults_witness :
  ∃ sid k row,
    report_of (RT := reference_runtime)
      (report_payload [("id", JStr "call-1")] []) linked_session = Ok (Ready sid k row)
    ∧ DbData.score_1 row = 0
    ∧ DbData.recommendation row = "N/A"%string
    ∧ DbData.overall_score row = S754_zero false
    ∧ DbData.transcript row = JStr "No transcript available".
Proof.
  eexists _, _, _. split; [vm_compute; reflexivity|].
  edestruct (@missing_fields_take_defaults reference_runtime) with
    (payload := report_payload [("id", JStr "call-1")] []) (st := linked_session)
    as (H1 & H2 & H3 & H4).
  - reflexivity.
  - vm_compute. reflexivity.
  - vm_compute. reflexivity.
  - split; [|split; [|split]].
    + apply (H1 "s1"%string DbData.score_1); [|reflexivity].
      apply elem_of_cons. left. reflexivity.
    + apply (H2 "rec"%string DbData.recommendation); [|reflexivity].
      apply elem_of_cons. left. reflexivity.
    + apply H3. reflexivity.
    + apply H4. reflexivity.
Defined.

Lemma unconvertible_score_aborts_witness :
  fst (vapi_webhook (RT := reference_runtime) accepts (Some null_score_report)
         linked_session) ≠ StatusOk
  ∧ snd (vapi_webhook (RT := reference_runtime) accepts (Some null_score_report)
           linked_session) = linked_session.
Proof.
  eapply (unconvertible_score_aborts (RT := reference_runtime) accepts
            null_score_report linked_session (JStr "end-of-call-report")
            _ _ "s3"%string DbData.score_3 JNull TypeError).
  - reflexivity.
  - reflexivity.
  - reflexivity.
  - vm_compute. reflexivity.
  - do 2 (apply elem_of_cons; right). apply elem_of_cons. left. reflexivity.
  - reflexivity.
  - reflexivity.
Defined.

Lemma reachable_state_ok_witness : state_ok (RT := reference_runtime) stale_link.
Proof.
  apply (reachable_state_ok (RT := reference_runtime) stale_link).
  exact reachable_stale_link.
Defined.

Lemma committed_row_matches_read_filters_witness :
  ∃ row,
    evaluations (snd (vapi_webhook (RT := reference_runtime) accepts (Some both_shapes)
                        linked_session)) = [row]
    ∧ Query.eq_filters
        (role_evaluations_query (RT := reference_runtime) "ada@example.com" "team_lead")
      = [("user_email"%string, DbData.user_email row);
         ("role"%string, DbData.role row)].
Proof.
  eexists. split; [vm_compute; reflexivity|].
  edestruct (@committed_row_matches_read_filters reference_runtime) with
    (req := ada) (timestamp := 1700000000000) (started := "2023-11-14T22:13:20"%string)
    (st0 := initial_state) (st := linked_session) (payload := both_shapes)
    as (_ & H & _).
  - vm_compute. reflexivity.
  - vm_compute. reflexivity.
  - vm_compute. reflexivity.
  - exact H.
Defined.

(** ** The scores object *)

Section Scores.
Context `{RT : Runtime}.





End Scores.


